(** * Property search engine: query compilation, pagination and analytics fallbacks

    A shallow embedding of [App/search.py] (class [PropertySearchEngine]) and of
    the request and response models of [App/models.py].

    Python values that travel to and from the search backend are JSON-like
    documents; they are embedded as the inductive type [value].  A Python
    [dict] is an association list in insertion order, a Python [list] a Rocq
    list, [int] is [Z], [float] a primitive binary64 float and [str] a
    [string].  Code that can raise returns in the error monad [result]. *)

From Stdlib Require Import ZArith List String Ascii Bool Lia PrimFloat.
Import ListNotations.
Open Scope string_scope.
Open Scope list_scope.
Open Scope Z_scope.

(** ** Python values *)

Module Py.

#[local] Set Warnings "-register-all".

Inductive value : Type :=
| VNone
| VBool (b : bool)
| VInt (n : Z)
| VFloat (x : float)
| VStr (s : string)
| VList (items : list value)
| VDict (entries : list (string * value)).

(** The exceptions the engine can meet.  All of them derive from Python's
    [Exception], so every [except Exception] clause catches each one. *)
Inductive exn : Type :=
| KeyError (key : string)
| TypeError
| AttributeError
| IndexError
| ValidationError
| NotFoundError
| RequestError
| ConnectionError
| TransportError (status : Z)
| ZeroDivisionError.

Definition result (A : Type) : Type := (exn + A)%type.

Definition ret {A : Type} (a : A) : result A := inr a.
Definition raise {A : Type} (e : exn) : result A := inl e.

Definition bind {A B : Type} (m : result A) (k : A -> result B) : result B :=
  match m with
  | inl e => inl e
  | inr a => k a
  end.

(** [try: m except Exception: handler] *)
Definition try_except {A : Type} (m : result A) (handler : exn -> A) : A :=
  match m with
  | inl e => handler e
  | inr a => a
  end.

(** Python truth value testing. *)
Definition float_truthy (x : float) : bool := negb (PrimFloat.eqb x 0%float).

Definition str_truthy (s : string) : bool :=
  match s with
  | EmptyString => false
  | String _ _ => true
  end.

Definition int_truthy (n : Z) : bool := negb (n =? 0).

Definition truthy (v : value) : bool :=
  match v with
  | VNone => false
  | VBool b => b
  | VInt n => int_truthy n
  | VFloat x => float_truthy x
  | VStr s => str_truthy s
  | VList items => match items with [] => false | _ :: _ => true end
  | VDict entries => match entries with [] => false | _ :: _ => true end
  end.

(** Truth value of an [Optional[...]] attribute: [None] is false. *)
Definition opt_truthy {A : Type} (t : A -> bool) (o : option A) : bool :=
  match o with
  | None => false
  | Some a => t a
  end.

(** [a or b] on values. *)
Definition or_else (a b : value) : value := if truthy a then a else b.

(** [d.get(k)] on the entries of a dict: the first binding of [k]. *)
Fixpoint lookup (k : string) (entries : list (string * value)) : option value :=
  match entries with
  | [] => None
  | (k', v) :: rest => if String.eqb k k' then Some v else lookup k rest
  end.

(** [v[k]] with a string subscript: a missing key of a dict raises
    [KeyError]; subscripting anything else by a string raises [TypeError]. *)
Definition getitem (v : value) (k : string) : result value :=
  match v with
  | VDict entries =>
      match lookup k entries with
      | Some x => ret x
      | None => raise (KeyError k)
      end
  | _ => raise TypeError
  end.

(** [v[k1][k2]...[kn]], subscripts evaluated left to right. *)
Fixpoint getpath (v : value) (keys : list string) : result value :=
  match keys with
  | [] => ret v
  | k :: rest => bind (getitem v k) (fun x => getpath x rest)
  end.

Fixpoint chars (s : string) : list value :=
  match s with
  | EmptyString => []
  | String c rest => VStr (String c EmptyString) :: chars rest
  end.

(** [for x in v]: a list yields its items, a dict its keys, a string its
    characters; nothing else is iterable. *)
Definition iter (v : value) : result (list value) :=
  match v with
  | VList items => ret items
  | VDict entries => ret (map (fun kv => VStr (fst kv)) entries)
  | VStr s => ret (chars s)
  | _ => raise TypeError
  end.

(** [[f(x) for x in xs]] where [f] may raise: stops at the first exception. *)
Fixpoint mapM {A B : Type} (f : A -> result B) (xs : list A) : result (list B) :=
  match xs with
  | [] => ret []
  | x :: rest =>
      bind (f x) (fun y => bind (mapM f rest) (fun ys => ret (y :: ys)))
  end.

(** [l[:n]] for an integer [n]: a negative [n] counts from the end. *)
Definition slice_to {A : Type} (l : list A) (n : Z) : list A :=
  if 0 <=? n then firstn (Z.to_nat n) l
  else firstn (Z.to_nat (Z.of_nat (List.length l) + n)) l.

(** [s in t] for strings. *)
Fixpoint contains (s t : string) : bool :=
  String.prefix s t ||
  match t with
  | EmptyString => false
  | String _ rest => contains s rest
  end.

End Py.

Import Py.

Declare Scope py_scope.
Delimit Scope py_scope with py.
Notation "x <- m ;; k" := (bind m (fun x => k))
  (at level 61, m at next level, right associativity) : py_scope.
Open Scope py_scope.

(** ** Models ([App/models.py]) *)

Module PropertySearchFilters.
Record t : Type := {
  location : option string;
  min_price : option float;
  max_price : option float;
  bedrooms : option Z;
  bathrooms : option Z;
  property_type : option string;
  min_sqft : option Z;
  max_sqft : option Z;
  amenities : option (list string)
}.

(** [PropertySearchFilters()]: every field at its declared default. *)
Definition default : t := {|
  location := None; min_price := None; max_price := None;
  bedrooms := None; bathrooms := None; property_type := None;
  min_sqft := None; max_sqft := None; amenities := None
|}.

(** [f.copy(update={name: v})], one definition per field that the
    properties below overwrite. *)
Definition with_min_price (v : option float) (f : t) : t :=
  {| location := location f; min_price := v; max_price := max_price f;
     bedrooms := bedrooms f; bathrooms := bathrooms f;
     property_type := property_type f; min_sqft := min_sqft f;
     max_sqft := max_sqft f; amenities := amenities f |}.

Definition with_max_price (v : option float) (f : t) : t :=
  {| location := location f; min_price := min_price f; max_price := v;
     bedrooms := bedrooms f; bathrooms := bathrooms f;
     property_type := property_type f; min_sqft := min_sqft f;
     max_sqft := max_sqft f; amenities := amenities f |}.

Definition with_bedrooms (v : option Z) (f : t) : t :=
  {| location := location f; min_price := min_price f;
     max_price := max_price f; bedrooms := v; bathrooms := bathrooms f;
     property_type := property_type f; min_sqft := min_sqft f;
     max_sqft := max_sqft f; amenities := amenities f |}.

Definition with_bathrooms (v : option Z) (f : t) : t :=
  {| location := location f; min_price := min_price f;
     max_price := max_price f; bedrooms := bedrooms f; bathrooms := v;
     property_type := property_type f; min_sqft := min_sqft f;
     max_sqft := max_sqft f; amenities := amenities f |}.

Definition with_property_type (v : option string) (f : t) : t :=
  {| location := location f; min_price := min_price f;
     max_price := max_price f; bedrooms := bedrooms f;
     bathrooms := bathrooms f; property_type := v; min_sqft := min_sqft f;
     max_sqft := max_sqft f; amenities := amenities f |}.
End PropertySearchFilters.

Module PropertySearchRequest.
Record t : Type := {
  query : option string;
  filters : option PropertySearchFilters.t;
  page : Z;      (* Field(default=1, ge=1) *)
  limit : Z;     (* Field(default=10, ge=1, le=100) *)
  sort_by : option string;
  sort_order : option string;
  (* Individual filter fields for backward compatibility *)
  location : option string;
  property_type : option string;
  min_price : option float;
  max_price : option float;
  min_bedrooms : option Z;
  max_bedrooms : option Z;
  min_bathrooms : option Z;
  max_bathrooms : option Z;
  min_sqft : option Z;
  max_sqft : option Z;
  amenities : option (list string)
}.

(** [PropertySearchRequest()]: every field at its declared default. *)
Definition default : t := {|
  query := None; filters := None; page := 1; limit := 10;
  sort_by := Some "price"; sort_order := Some "asc";
  location := None; property_type := None; min_price := None;
  max_price := None; min_bedrooms := None; max_bedrooms := None;
  min_bathrooms := None; max_bathrooms := None; min_sqft := None;
  max_sqft := None; amenities := None
|}.

Definition with_filters (v : option PropertySearchFilters.t) (r : t) : t :=
  {| query := query r; filters := v; page := page r; limit := limit r;
     sort_by := sort_by r; sort_order := sort_order r;
     location := location r; property_type := property_type r;
     min_price := min_price r; max_price := max_price r;
     min_bedrooms := min_bedrooms r; max_bedrooms := max_bedrooms r;
     min_bathrooms := min_bathrooms r; max_bathrooms := max_bathrooms r;
     min_sqft := min_sqft r; max_sqft := max_sqft r;
     amenities := amenities r |}.

(** The same request with the flattened top-level filter fields set. *)
Definition with_flat_price_and_type (lo : option float)
    (ty : option string) (r : t) : t :=
  {| query := query r; filters := filters r; page := page r;
     limit := limit r; sort_by := sort_by r; sort_order := sort_order r;
     location := location r; property_type := ty;
     min_price := lo; max_price := max_price r;
     min_bedrooms := min_bedrooms r; max_bedrooms := max_bedrooms r;
     min_bathrooms := min_bathrooms r; max_bathrooms := max_bathrooms r;
     min_sqft := min_sqft r; max_sqft := max_sqft r;
     amenities := amenities r |}.
End PropertySearchRequest.

Module PropertySearchResponse.
Record t (Property : Type) : Type := {
  properties : list Property;
  total : Z;
  page : Z;
  limit : Z;
  total_pages : Z
}.
Arguments Build_t {Property} properties total page limit total_pages.
Arguments properties {Property} r : rename.
Arguments total {Property} r : rename.
Arguments page {Property} r : rename.
Arguments limit {Property} r : rename.
Arguments total_pages {Property} r : rename.
End PropertySearchResponse.

Module F := PropertySearchFilters.
Module R := PropertySearchRequest.
Module Resp := PropertySearchResponse.

(** ** Query builder ([PropertySearchEngine._build_search_query]) *)

Definition vstrs (l : list string) : value := VList (map VStr l).

Definition opt_value {A : Type} (inj : A -> value) (o : option A) : value :=
  match o with
  | None => VNone
  | Some a => inj a
  end.

Definition multi_match (q : value) (fields : list string) : value :=
  VDict [("multi_match", VDict [("query", q); ("fields", vstrs fields)])].

Definition term (field : string) (v : value) : value :=
  VDict [("term", VDict [(field, v)])].

Definition range (field : string) (bounds : list (string * value)) : value :=
  VDict [("range", VDict [(field, VDict bounds)])].

(** [if c: l.append(x)] *)
Definition append_if {A : Type} (c : bool) (x : A) (l : list A) : list A :=
  if c then l ++ [x] else l.

(** The bounds dict of a range clause: [d = {}], then [d["gte"] = lo] when
    [lo] is truthy, then [d["lte"] = hi] when [hi] is truthy. *)
Definition range_bounds {A : Type} (t : A -> bool) (inj : A -> value)
    (lo hi : option A) : list (string * value) :=
  let d := [] in
  let d := append_if (opt_truthy t lo) ("gte", opt_value inj lo) d in
  let d := append_if (opt_truthy t hi) ("lte", opt_value inj hi) d in
  d.

Definition status_active : value := term "status" (VStr "active").

Definition match_all : value := VDict [("match_all", VDict [])].

Definition bool_query (must_clauses filter_clauses : list value) : value :=
  VDict [("bool", VDict [("must", VList must_clauses);
                         ("filter", VList filter_clauses)])].

(** The clauses contributed by [search_request.filters], appended to the two
    clause lists in source order. *)
Definition filters_clauses (f : F.t)
    (must_clauses filter_clauses : list value) : list value * list value :=
  (* Location filter *)
  let must_clauses :=
    append_if (opt_truthy str_truthy (F.location f))
      (multi_match (opt_value VStr (F.location f))
         ["location.city"; "location.state"; "location.address";
          "location.neighborhood"])
      must_clauses in
  (* Price range *)
  let filter_clauses :=
    append_if (opt_truthy float_truthy (F.min_price f)
               || opt_truthy float_truthy (F.max_price f))
      (range "price"
         (range_bounds float_truthy VFloat (F.min_price f) (F.max_price f)))
      filter_clauses in
  (* Bedrooms *)
  let filter_clauses :=
    append_if (opt_truthy int_truthy (F.bedrooms f))
      (term "details.bedrooms" (opt_value VInt (F.bedrooms f)))
      filter_clauses in
  (* Bathrooms *)
  let filter_clauses :=
    append_if (opt_truthy int_truthy (F.bathrooms f))
      (range "details.bathrooms" [("gte", opt_value VInt (F.bathrooms f))])
      filter_clauses in
  (* Property type *)
  let filter_clauses :=
    append_if (opt_truthy str_truthy (F.property_type f))
      (term "details.property_type" (opt_value VStr (F.property_type f)))
      filter_clauses in
  (* Square footage *)
  let filter_clauses :=
    append_if (opt_truthy int_truthy (F.min_sqft f)
               || opt_truthy int_truthy (F.max_sqft f))
      (range "details.square_feet"
         (range_bounds int_truthy VInt (F.min_sqft f) (F.max_sqft f)))
      filter_clauses in
  (must_clauses, filter_clauses).

Definition nonempty {A : Type} (l : list A) : bool :=
  match l with
  | [] => false
  | _ :: _ => true
  end.

Definition _build_search_query (search_request : R.t) : value :=
  let must_clauses := [] in
  let filter_clauses := [] in
  (* Text search *)
  let must_clauses :=
    append_if (opt_truthy str_truthy (R.query search_request))
      (multi_match (opt_value VStr (R.query search_request))
         ["title^2"; "description"; "location.address"; "location.city";
          "location.neighborhood"])
      must_clauses in
  (* Filters: a model instance has no __bool__ or __len__, so it is truthy *)
  let '(must_clauses, filter_clauses) :=
    match R.filters search_request with
    | Some f => filters_clauses f must_clauses filter_clauses
    | None => (must_clauses, filter_clauses)
    end in
  (* Only active properties *)
  let filter_clauses := filter_clauses ++ [status_active] in
  (* Build final query *)
  if nonempty must_clauses || nonempty filter_clauses
  then bool_query must_clauses filter_clauses
  else match_all.

(** Reading a compiled query back: the two clause lists of a boolean query. *)
Definition clause_list (q : value) (group : string) : list value :=
  match getpath q ["bool"; group] with
  | inr (VList clauses) => clauses
  | _ => []
  end.

Definition must_of (q : value) : list value := clause_list q "must".
Definition filter_of (q : value) : list value := clause_list q "filter".

Definition unset {A : Type} (o : option A) : bool :=
  match o with
  | None => true
  | Some _ => false
  end.

(** A request with no free-text query and no filter set: [filters] is absent,
    or present with every field left at [None]. *)
Definition fully_empty (r : R.t) : bool :=
  unset (R.query r) &&
  match R.filters r with
  | None => true
  | Some f =>
      unset (F.location f) && unset (F.min_price f) && unset (F.max_price f)
      && unset (F.bedrooms f) && unset (F.bathrooms f)
      && unset (F.property_type f) && unset (F.min_sqft f)
      && unset (F.max_sqft f) && unset (F.amenities f)
  end.

(** [x == 0] on floats; true of both signed zeros. *)
Definition float_is_zero (x : float) : bool := PrimFloat.eqb x 0%float.

(** ** Sort planner ([PropertySearchEngine._build_sort_criteria]) *)

Definition sort_map : list (string * string) :=
  [("price", "price");
   ("date", "listing_date");
   ("bedrooms", "details.bedrooms");
   ("sqft", "details.square_feet");
   ("relevance", "_score")].

Fixpoint assoc (k : string) (m : list (string * string)) : option string :=
  match m with
  | [] => None
  | (k', v) :: rest => if String.eqb k k' then Some v else assoc k rest
  end.

(** [sort_map.get(key, default)]; [None] is not a key of [sort_map]. *)
Definition sort_map_get (key : option string) (default : string) : string :=
  match key with
  | None => default
  | Some k =>
      match assoc k sort_map with
      | Some field => field
      | None => default
      end
  end.

(** [sort_order == s] for an [Optional[str]] *)
Definition opt_str_eqb (o : option string) (s : string) : bool :=
  match o with
  | None => false
  | Some x => String.eqb x s
  end.

Definition sort_directive (field order : string) : value :=
  VList [VDict [(field, VDict [("order", VStr order)])]].

Definition _build_sort_criteria (sort_by sort_order : option string) : value :=
  let field := sort_map_get sort_by "price" in
  let order := if opt_str_eqb sort_order "desc" then "desc" else "asc" in
  (* Special handling for relevance score *)
  if String.eqb field "_score"
  then sort_directive "_score" "desc"
  else sort_directive field order.

(** ** The backend client and the engine *)

Module OpenSearch.
(** The two client calls the modelled operations use.  Each either returns
    the decoded response body or raises. *)
Record t : Type := {
  (* client.search(index=..., body=..., size=...) *)
  search : string -> value -> option Z -> result value;
  (* client.get(index=..., id=...) *)
  get : string -> string -> result value
}.
End OpenSearch.

Record PropertySearchEngine : Type := {
  client : OpenSearch.t;
  index_name : string
}.

(** Python's [str.lower] and the iteration order of a [set] of strings are
    taken as an interface: the order in which [list(set(l))] enumerates is
    not fixed by the language, only that it lists each element of [l] once. *)
Class PyRuntime : Type := {
  lower : string -> string;
  set_to_list : list string -> list string;
  set_to_list_NoDup : forall l, NoDup (set_to_list l);
  set_to_list_In : forall l x, In x (set_to_list l) <-> In x l
}.

Inductive HTTP (A : Type) : Type :=
| Ok (body : A)
| HTTPException (status_code : Z) (detail : string).
Arguments Ok {A} body.
Arguments HTTPException {A} status_code detail.

Section Engine.

(** [Property] is a pydantic model; [Property_init d] stands for the
    constructor call of [Property] on the entries of the document [d] as
    keyword arguments, which validates them and may raise. *)
Context {Property : Type} (Property_init : value -> result Property).
Context {RT : PyRuntime}.

(** The operand of the pagination arithmetic: the backend reports the match
    count as an integer; any other value is rejected. *)
Definition as_int (v : value) : result Z :=
  match v with
  | VInt n => ret n
  | _ => raise TypeError
  end.

(** [a // b] on integers. *)
Definition floordiv (a b : Z) : result Z :=
  if b =? 0 then raise ZeroDivisionError else ret (a / b).

(** The body of the search call. *)
Definition search_body (search_request : R.t) : value :=
  let query := _build_search_query search_request in
  (* Calculate pagination *)
  let from_offset := (R.page search_request - 1) * R.limit search_request in
  VDict [("query", query);
         ("from", VInt from_offset);
         ("size", VInt (R.limit search_request));
         ("sort", _build_sort_criteria (R.sort_by search_request)
                                       (R.sort_order search_request))].

(** [Property] built from [hit['_source']]. *)
Definition property_of_hit (hit : value) : result Property :=
  src <- getitem hit "_source" ;; Property_init src.

Definition search_properties (self : PropertySearchEngine)
    (search_request : R.t) : result (Resp.t Property) :=
  (* Execute search *)
  response <- OpenSearch.search (client self) (index_name self)
                (search_body search_request) None ;;
  (* Parse results *)
  hits <- getpath response ["hits"; "hits"] ;;
  hits <- iter hits ;;
  properties <- mapM property_of_hit hits ;;
  total <- getpath response ["hits"; "total"; "value"] ;;
  total <- as_int total ;;
  total_pages <- floordiv (total + R.limit search_request - 1)
                          (R.limit search_request) ;;
  ret {| Resp.properties := properties;
         Resp.total := total;
         Resp.page := R.page search_request;
         Resp.limit := R.limit search_request;
         Resp.total_pages := total_pages |}.

Definition get_property_by_id (self : PropertySearchEngine)
    (property_id : string) : option Property :=
  try_except
    (response <- OpenSearch.get (client self) (index_name self) property_id ;;
     src <- getitem response "_source" ;;
     p <- Property_init src ;;
     ret (Some p))
    (fun _ => None).


(** *** Location suggestions *)

Definition suggestions_query (query : string) (limit : Z) : value :=
  VDict
    [("query",
      VDict [("bool",
        VDict [("should",
          VList
            [VDict [("match",
               VDict [("location.city",
                 VDict [("query", VStr query); ("boost", VInt 2)])])];
             VDict [("match", VDict [("location.neighborhood", VStr query)])];
             VDict [("match", VDict [("location.state", VStr query)])]])])]);
     ("aggs",
      VDict
        [("unique_cities",
          VDict [("terms",
            VDict [("field", VStr "location.city"); ("size", VInt limit)])]);
         ("unique_neighborhoods",
          VDict [("terms",
            VDict [("field", VStr "location.neighborhood");
                   ("size", VInt limit)])])]);
     ("size", VInt 0)].

(** [v.lower()]: only a [str] has the method. *)
Definition lower_of (v : value) : result string :=
  match v with
  | VStr s => ret (lower s)
  | _ => raise AttributeError
  end.

(** [suggestions.append(bucket['key'])], reached only once
    [bucket['key'].lower()] has succeeded, that is for a [str] key. *)
Definition append_key (key : value) (suggestions : list string) : list string :=
  match key with
  | VStr s => suggestions ++ [s]
  | _ => suggestions
  end.

(** One pass of the city loop body. *)
Definition add_city (query : string) (suggestions : list string)
    (bucket : value) : result (list string) :=
  key <- getitem bucket "key" ;;
  k <- lower_of key ;;
  if contains (lower query) k
  then ret (append_key key suggestions)
  else ret suggestions.

(** One pass of the neighborhood loop body: [and] skips a falsy key before
    [.lower()] is called on it. *)
Definition add_neighborhood (query : string) (suggestions : list string)
    (bucket : value) : result (list string) :=
  key <- getitem bucket "key" ;;
  if truthy key then
    k <- lower_of key ;;
    if contains (lower query) k
    then ret (append_key key suggestions)
    else ret suggestions
  else ret suggestions.

(** [for x in xs: acc = body(acc, x)], stopping at the first exception. *)
Fixpoint for_each {A S : Type} (body : S -> A -> result S) (xs : list A)
    (acc : S) : result S :=
  match xs with
  | [] => ret acc
  | x :: rest => acc' <- body acc x ;; for_each body rest acc'
  end.

(** The part of the [try] block that follows the search call. *)
Definition suggestions_of_response (query : string) (limit : Z)
    (response : value) : result (list string) :=
  let suggestions := [] in
  (* Add cities *)
  buckets <- getpath response ["aggregations"; "unique_cities"; "buckets"] ;;
  buckets <- iter buckets ;;
  suggestions <- for_each (add_city query) buckets suggestions ;;
  (* Add neighborhoods *)
  buckets <- getpath response
               ["aggregations"; "unique_neighborhoods"; "buckets"] ;;
  buckets <- iter buckets ;;
  suggestions <- for_each (add_neighborhood query) buckets suggestions ;;
  ret (slice_to (set_to_list suggestions) limit).

Definition get_location_suggestions (self : PropertySearchEngine)
    (query : string) (limit : Z) : list string :=
  let search_query := suggestions_query query limit in
  try_except
    (response <- OpenSearch.search (client self) (index_name self)
                   search_query None ;;
     suggestions_of_response query limit response)
    (fun _ => []).

(** *** Location trends *)

Definition price_per_sqft_script : string :=
  "if (doc['details.square_feet'].size() > 0 && doc['details.square_feet'].value > 0) { return doc['price'].value / doc['details.square_feet'].value } else { return 0 }".

Definition field_agg (kind field : string) : value :=
  VDict [(kind, VDict [("field", VStr field)])].

Definition trends_aggs : value :=
  VDict
    [("avg_price", field_agg "avg" "price");
     ("median_price",
      VDict [("percentiles",
        VDict [("field", VStr "price"); ("percents", VList [VInt 50])])]);
     ("min_price", field_agg "min" "price");
     ("max_price", field_agg "max" "price");
     ("total_properties", field_agg "value_count" "id");
     ("price_per_sqft",
      VDict [("avg",
        VDict [("script", VDict [("source", VStr price_per_sqft_script)])])]);
     ("property_types", field_agg "terms" "details.property_type");
     ("price_ranges",
      VDict [("range",
        VDict [("field", VStr "price");
               ("ranges",
                VList
                  [VDict [("key", VStr "Under $200K"); ("to", VInt 200000)];
                   VDict [("key", VStr "$200K-$400K");
                          ("from", VInt 200000); ("to", VInt 400000)];
                   VDict [("key", VStr "$400K-$600K");
                          ("from", VInt 400000); ("to", VInt 600000)];
                   VDict [("key", VStr "$600K-$800K");
                          ("from", VInt 600000); ("to", VInt 800000)];
                   VDict [("key", VStr "Over $800K");
                          ("from", VInt 800000)]])])]);
     ("bedrooms_distribution", field_agg "terms" "details.bedrooms");
     ("listing_dates",
      VDict [("date_histogram",
        VDict [("field", VStr "listing_date");
               ("calendar_interval", VStr "month")])])].

Definition trends_query (location : string) (property_type : option string)
    : value :=
  let must :=
    [multi_match (VStr location)
       ["location.city"; "location.state"; "location.neighborhood"]] in
  (* Add property type filter if specified *)
  let must :=
    append_if (opt_truthy str_truthy property_type)
      (term "details.property_type" (opt_value VStr property_type)) must in
  VDict [("query", VDict [("bool", VDict [("must", VList must)])]);
         ("aggs", trends_aggs)].

(** [d.values()]: only a [dict] has the method. *)
Definition dict_values (v : value) : result (list value) :=
  match v with
  | VDict entries => ret (map snd entries)
  | _ => raise AttributeError
  end.

(** [l[0]] *)
Definition first {A : Type} (l : list A) : result A :=
  match l with
  | [] => raise IndexError
  | x :: _ => ret x
  end.

(** [[{label: bucket[key], "count": bucket['doc_count']} for bucket in v]] *)
Definition bucket_counts (label key : string) (v : value) : result value :=
  buckets <- iter v ;;
  rows <- mapM (fun bucket =>
                  k <- getitem bucket key ;;
                  c <- getitem bucket "doc_count" ;;
                  ret (VDict [(label, k); ("count", c)])) buckets ;;
  ret (VList rows).

Definition trends_envelope (location : string) (property_type : option string)
    (time_period : string) (summary : list (string * value)) : value :=
  VDict [("location", VStr location);
         ("property_type", opt_value VStr property_type);
         ("time_period", VStr time_period);
         ("summary", VDict summary)].

(** The summary returned from the [except] branch. *)
Definition empty_summary : list (string * value) :=
  [("total_properties", VInt 0);
   ("average_price", VInt 0);
   ("median_price", VInt 0);
   ("min_price", VInt 0);
   ("max_price", VInt 0);
   ("avg_price_per_sqft", VInt 0);
   ("property_types", VList []);
   ("price_ranges", VList []);
   ("bedrooms_distribution", VList []);
   ("monthly_listings", VList [])].

Definition trends_summary (aggs : value) : result (list (string * value)) :=
  total_properties <- getpath aggs ["total_properties"; "value"] ;;
  average_price <- getpath aggs ["avg_price"; "value"] ;;
  median_values <- getpath aggs ["median_price"; "values"] ;;
  median_price <-
    (if truthy median_values
     then vs <- dict_values median_values ;; first vs
     else ret (VInt 0)) ;;
  min_price <- getpath aggs ["min_price"; "value"] ;;
  max_price <- getpath aggs ["max_price"; "value"] ;;
  avg_price_per_sqft <- getpath aggs ["price_per_sqft"; "value"] ;;
  b <- getpath aggs ["property_types"; "buckets"] ;;
  property_types <- bucket_counts "type" "key" b ;;
  b <- getpath aggs ["price_ranges"; "buckets"] ;;
  price_ranges <- bucket_counts "range" "key" b ;;
  b <- getpath aggs ["bedrooms_distribution"; "buckets"] ;;
  bedrooms_distribution <- bucket_counts "bedrooms" "key" b ;;
  b <- getpath aggs ["listing_dates"; "buckets"] ;;
  monthly_listings <- bucket_counts "month" "key_as_string" b ;;
  ret [("total_properties", total_properties);
       ("average_price", or_else average_price (VInt 0));
       ("median_price", median_price);
       ("min_price", or_else min_price (VInt 0));
       ("max_price", or_else max_price (VInt 0));
       ("avg_price_per_sqft", or_else avg_price_per_sqft (VInt 0));
       ("property_types", property_types);
       ("price_ranges", price_ranges);
       ("bedrooms_distribution", bedrooms_distribution);
       ("monthly_listings", monthly_listings)].

(** The message printed in the [except] branch is not part of the result
    and is left out. *)
Definition get_location_trends (self : PropertySearchEngine)
    (location : string) (property_type : option string)
    (time_period : string) : value :=
  let query := trends_query location property_type in
  try_except
    (response <- OpenSearch.search (client self) (index_name self)
                   query (Some 0) ;;
     aggs <- getitem response "aggregations" ;;
     summary <- trends_summary aggs ;;
     ret (trends_envelope location property_type time_period summary))
    (fun _ => trends_envelope location property_type time_period
                empty_summary).

(** What one pass of either loop body can do to the list: leave it as it
    is, or append the bucket's key, a string that contains the query when
    both are lower-cased. *)
Definition appends_match (query : string)
    (body : list string -> value -> result (list string)) : Prop :=
  forall acc bucket out,
    body acc bucket = inr out ->
    out = acc
    \/ exists s, getitem bucket "key" = inr (VStr s)
                 /\ contains (lower query) (lower s) = true
                 /\ out = acc ++ [s].

End Engine.

(** * Further operations of the engine *)

(** ** Writes ([add_property], [update_property], [delete_property],
    [bulk_index_properties]) *)

Module OpenSearchWrites.
(** The write calls of the client; in the source they are methods of the
    same client object as [search] and [get]. *)
Record t : Type := {
  (* client.index(index=..., id=..., body=...) *)
  index : string -> value -> value -> result value;
  (* client.update(index=..., id=..., body=...) *)
  update : string -> string -> value -> result value;
  (* client.delete(index=..., id=...) *)
  delete : string -> string -> result value;
  (* opensearchpy.helpers.bulk(client, actions) *)
  bulk : list value -> result value
}.
End OpenSearchWrites.

(** [d.get(k)]: [None] for a missing key; only a [dict] has the method. *)
Definition get_method (d : value) (k : string) : result value :=
  match d with
  | VDict entries =>
      match lookup k entries with
      | Some v => ret v
      | None => ret VNone
      end
  | _ => raise AttributeError
  end.

(** [v == s] for a string literal [s]: only an equal [str] compares equal. *)
Definition eq_str (v : value) (s : string) : bool :=
  match v with
  | VStr x => String.eqb x s
  | _ => false
  end.

(** [v in [s1, ..., sn]] for string literals. *)
Definition in_strs (v : value) (l : list string) : bool := existsb (eq_str v) l.

Definition add_property (client : OpenSearchWrites.t) (index_name : string)
    (property_data : value) : result value :=
  id <- get_method property_data "id" ;;
  OpenSearchWrites.index client index_name id property_data.

Definition update_property (client : OpenSearchWrites.t) (index_name : string)
    (property_id : string) (property_data : value) : bool :=
  try_except
    (response <- OpenSearchWrites.update client index_name property_id
                   (VDict [("doc", property_data)]) ;;
     r <- getitem response "result" ;;
     ret (in_strs r ["updated"; "noop"]))
    (fun _ => false).

Definition delete_property (client : OpenSearchWrites.t) (index_name : string)
    (property_id : string) : bool :=
  try_except
    (response <- OpenSearchWrites.delete client index_name property_id ;;
     r <- getitem response "result" ;;
     ret (eq_str r "deleted"))
    (fun _ => false).

(** One bulk action per property. *)
Definition bulk_action (index_name : string) (prop : value) : result value :=
  id <- get_method prop "id" ;;
  ret (VDict [("_index", VStr index_name); ("_id", id); ("_source", prop)]).

Definition bulk_actions (index_name : string) (properties : list value)
    : result (list value) :=
  for_each (fun actions prop => a <- bulk_action index_name prop ;;
                                ret (actions ++ [a])) properties [].

(** The function returns nothing; its result here is the list of actions it
    handed to [bulk]. *)
Definition bulk_index_properties (client : OpenSearchWrites.t)
    (index_name : string) (properties : list value) : result (list value) :=
  actions <- bulk_actions index_name properties ;;
  _ <- OpenSearchWrites.bulk client actions ;;
  ret actions.

(** ** Property statistics ([get_property_stats]) *)

(** [d[k] = v] on the entries of a dict: an existing key keeps its place. *)
Fixpoint setitem (entries : list (string * value)) (k : string) (v : value)
    : list (string * value) :=
  match entries with
  | [] => [(k, v)]
  | (k', v') :: rest =>
      if String.eqb k k' then (k, v) :: rest else (k', v') :: setitem rest k v
  end.

Definition stats_aggs : value :=
  VDict
    [("total_properties", field_agg "value_count" "id");
     ("avg_price", field_agg "avg" "price");
     ("price_stats", field_agg "stats" "price");
     ("sqft_stats", field_agg "stats" "details.square_feet");
     ("property_types",
      VDict [("terms", VDict [("field", VStr "details.property_type");
                              ("size", VInt 20)])]);
     ("cities",
      VDict [("terms", VDict [("field", VStr "location.city");
                              ("size", VInt 20)])]);
     ("bedrooms", field_agg "terms" "details.bedrooms");
     ("bathrooms", field_agg "terms" "details.bathrooms");
     ("status_distribution", field_agg "terms" "status")].

(** The [filters] list of [get_property_stats]. *)
Definition stats_filters (location property_type : option string) : list value :=
  let filters := [] in
  let filters :=
    append_if (opt_truthy str_truthy location)
      (multi_match (opt_value VStr location)
         ["location.city"; "location.state"; "location.neighborhood"])
      filters in
  let filters :=
    append_if (opt_truthy str_truthy property_type)
      (term "details.property_type" (opt_value VStr property_type))
      filters in
  filters.

Definition stats_query (location property_type : option string) : value :=
  let query := [("query", match_all)] in
  (* Add filters if provided *)
  let filters := stats_filters location property_type in
  let query :=
    if nonempty filters
    then [("query", VDict [("bool", VDict [("must", VList filters)])])]
    else query in
  (* Add aggregations *)
  VDict (setitem query "aggs" stats_aggs).

Definition stats_envelope (location property_type : option string)
    (statistics : list (string * value)) : value :=
  VDict [("filters", VDict [("location", opt_value VStr location);
                            ("property_type", opt_value VStr property_type)]);
         ("statistics", VDict statistics)].

(** The statistics returned from the [except] branch. *)
Definition empty_statistics : list (string * value) :=
  [("total_properties", VInt 0);
   ("price_statistics", VDict []);
   ("square_feet_statistics", VDict []);
   ("property_types", VList []);
   ("top_cities", VList []);
   ("bedrooms_distribution", VList []);
   ("bathrooms_distribution", VList []);
   ("status_distribution", VList [])].

Definition stats_of_aggs (aggs : value) : result (list (string * value)) :=
  total_properties <- getpath aggs ["total_properties"; "value"] ;;
  price_statistics <- getitem aggs "price_stats" ;;
  square_feet_statistics <- getitem aggs "sqft_stats" ;;
  b <- getpath aggs ["property_types"; "buckets"] ;;
  property_types <- bucket_counts "type" "key" b ;;
  b <- getpath aggs ["cities"; "buckets"] ;;
  top_cities <- bucket_counts "city" "key" b ;;
  b <- getpath aggs ["bedrooms"; "buckets"] ;;
  bedrooms_distribution <- bucket_counts "bedrooms" "key" b ;;
  b <- getpath aggs ["bathrooms"; "buckets"] ;;
  bathrooms_distribution <- bucket_counts "bathrooms" "key" b ;;
  b <- getpath aggs ["status_distribution"; "buckets"] ;;
  status_distribution <- bucket_counts "status" "key" b ;;
  ret [("total_properties", total_properties);
       ("price_statistics", price_statistics);
       ("square_feet_statistics", square_feet_statistics);
       ("property_types", property_types);
       ("top_cities", top_cities);
       ("bedrooms_distribution", bedrooms_distribution);
       ("bathrooms_distribution", bathrooms_distribution);
       ("status_distribution", status_distribution)].

(** The message printed in the [except] branch is left out. *)
Definition get_property_stats (self : PropertySearchEngine)
    (location property_type : option string) : value :=
  let query := stats_query location property_type in
  try_except
    (response <- OpenSearch.search (client self) (index_name self)
                   query (Some 0) ;;
     aggs <- getitem response "aggregations" ;;
     statistics <- stats_of_aggs aggs ;;
     ret (stats_envelope location property_type statistics))
    (fun _ => stats_envelope location property_type empty_statistics).

(** ** Routes of [App/main.py] over the write operations *)

(** [APIResponse(success=True, message=..., data=...)], fields in the order
    the model declares them. *)
Definition api_success (message : string) (data : list (string * value))
    : value :=
  VDict [("success", VBool true); ("data", VDict data);
         ("message", VStr message); ("error", VNone)].

(** [PUT /api/properties/{property_id}]; [property_data] is the dict of the
    validated body. *)
Definition update_property_route (client : OpenSearchWrites.t)
    (index_name property_id : string) (property_data : value) : HTTP value :=
  let result := update_property client index_name property_id property_data in
  if negb result
  then HTTPException 404 "Property not found"
  else Ok (api_success "Property updated successfully"
             [("property_id", VStr property_id)]).

(** [DELETE /api/properties/{property_id}] *)
Definition delete_property_route (client : OpenSearchWrites.t)
    (index_name property_id : string) : HTTP value :=
  let result := delete_property client index_name property_id in
  if negb result
  then HTTPException 404 "Property not found"
  else Ok (api_success "Property deleted successfully"
             [("property_id", VStr property_id)]).

(** ** The GET search route of [App/main.py] *)

(** [PropertySearchRequest(filters=..., page=..., limit=..., sort_by=...,
    sort_order=...)]: the model's constraints [page >= 1] and
    [1 <= limit <= 100] are checked on construction; every other field keeps
    its default. *)
Definition PropertySearchRequest_init (filters : option F.t) (page limit : Z)
    (sort_by sort_order : option string) : result R.t :=
  if (page <? 1) || (limit <? 1) || (100 <? limit)
  then raise ValidationError
  else ret {| R.query := None; R.filters := filters; R.page := page;
              R.limit := limit;
              R.sort_by := sort_by; R.sort_order := sort_order;
              R.location := None; R.property_type := None;
              R.min_price := None; R.max_price := None;
              R.min_bedrooms := None; R.max_bedrooms := None;
              R.min_bathrooms := None; R.max_bathrooms := None;
              R.min_sqft := None; R.max_sqft := None;
              R.amenities := None |}.

Section Routes.

Context {Property : Type} (Property_init : value -> result Property).

(** [str(e)], the text of an exception. *)
Context (exn_str : exn -> string).

(** [GET /api/properties/search] *)
Definition search_properties_get (self : PropertySearchEngine)
    (location property_type : option string)
    (min_price max_price : option float)
    (bedrooms bathrooms min_sqft max_sqft : option Z)
    (page limit : Z) (sort_by sort_order : string)
    : HTTP (Resp.t Property) :=
  try_except
    (let filters :=
       {| F.location := location; F.min_price := min_price;
          F.max_price := max_price; F.bedrooms := bedrooms;
          F.bathrooms := bathrooms; F.property_type := property_type;
          F.min_sqft := min_sqft; F.max_sqft := max_sqft;
          F.amenities := None |} in
     search_request <- PropertySearchRequest_init (Some filters) page limit
                         (Some sort_by) (Some sort_order) ;;
     results <- search_properties Property_init self search_request ;;
     ret (Ok results))
    (fun e => HTTPException 500 ("Search error: " ++ exn_str e)).

End Routes.

(** * The agent's bookkeeping ([App/agent.py]) *)

(** A Python dict with string keys, in insertion order. *)
Fixpoint dlookup {V : Type} (k : string) (d : list (string * V)) : option V :=
  match d with
  | [] => None
  | (k', v) :: rest => if String.eqb k k' then Some v else dlookup k rest
  end.

Fixpoint dstore {V : Type} (k : string) (v : V) (d : list (string * V))
    : list (string * V) :=
  match d with
  | [] => [(k, v)]
  | (k', v') :: rest =>
      if String.eqb k k' then (k, v) :: rest else (k', v') :: dstore k v rest
  end.

(** [d.get(k, [])] *)
Definition dget_list {A : Type} (k : string) (d : list (string * list A))
    : list A :=
  match dlookup k d with
  | Some l => l
  | None => []
  end.

(** [x in l] for strings. *)
Definition in_list (x : string) (l : list string) : bool :=
  existsb (String.eqb x) l.

(** [l.remove(x)]: drops the first occurrence. *)
Fixpoint remove_first (x : string) (l : list string) : list string :=
  match l with
  | [] => []
  | y :: rest => if String.eqb x y then rest else y :: remove_first x rest
  end.

(** [l[start:]] for an integer [start]: a negative [start] counts from the
    end, and the bounds are clamped to the list. *)
Definition slice_from {A : Type} (l : list A) (start : Z) : list A :=
  let n := Z.of_nat (List.length l) in
  let s := if start <? 0 then Z.max 0 (start + n) else Z.min start n in
  skipn (Z.to_nat s) l.

Definition ChatMessage : Type := (string * string)%type.  (* role, content *)

Definition Favorites : Type := list (string * list string).
Definition History : Type := list (string * list ChatMessage).

Definition _store_chat_history (conversation_history : History)
    (session_id role content : string) : History :=
  let conversation_history :=
    match dlookup session_id conversation_history with
    | None => dstore session_id [] conversation_history
    | Some _ => conversation_history
    end in
  dstore session_id
    (dget_list session_id conversation_history ++ [(role, content)])
    conversation_history.

Definition get_chat_history (conversation_history : History)
    (session_id : string) (limit : Z) : list ChatMessage :=
  slice_from (dget_list session_id conversation_history) (- limit).

(** The three favorites methods; each returns [True], left out here. *)
Definition add_to_favorites (user_favorites : Favorites)
    (user_id property_id : string) : Favorites :=
  let user_favorites :=
    match dlookup user_id user_favorites with
    | None => dstore user_id [] user_favorites
    | Some _ => user_favorites
    end in
  if negb (in_list property_id (dget_list user_id user_favorites))
  then dstore user_id (dget_list user_id user_favorites ++ [property_id])
         user_favorites
  else user_favorites.

Definition remove_from_favorites (user_favorites : Favorites)
    (user_id property_id : string) : Favorites :=
  match dlookup user_id user_favorites with
  | Some l =>
      if in_list property_id l
      then dstore user_id (remove_first property_id l) user_favorites
      else user_favorites
  | None => user_favorites
  end.

Definition get_user_favorites (user_favorites : Favorites) (user_id : string)
    : list string :=
  dget_list user_id user_favorites.

(** ** Follow-up suggestions ([RealEstateAgent._generate_suggestions]) *)

Section Suggestions.

(** [p.location.city] of a property. *)
Context {Property : Type} (city : Property -> string).
Context {RT : PyRuntime}.

Definition base_suggestions : list string :=
  ["Show me properties under $500,000";
   "Find 3-bedroom houses in Austin";
   "What's the market trend in this area?";
   "Compare neighborhoods for families"].

(** The [for] loop inside the [while]: the first base suggestion that is not
    yet in [suggestions], if there is one. *)
Fixpoint first_missing (base suggestions : list string) : option string :=
  match base with
  | [] => None
  | suggestion :: rest =>
      if negb (in_list suggestion suggestions)
      then Some suggestion
      else first_missing rest suggestions
  end.

(** [while len(suggestions) < 4: ...], run for at most [fuel] passes; [None]
    when the passes run out. *)
Fixpoint fill_suggestions (fuel : nat) (suggestions : list string)
    : option (list string) :=
  if (List.length suggestions <? 4)%nat then
    match fuel with
    | O => None
    | S fuel' =>
        match first_missing base_suggestions suggestions with
        | Some suggestion => fill_suggestions fuel' (suggestions ++ [suggestion])
        | None => fill_suggestions fuel' suggestions
        end
    end
  else Some suggestions.

(** The suggestions collected before the [while] loop. *)
Definition property_suggestions (properties : list Property) : list string :=
  let suggestions := [] in
  if nonempty properties then
    let suggestions :=
      append_if (5 <? List.length properties)%nat
        "Show me more properties like these" suggestions in
    let suggestions :=
      suggestions ++ ["Get detailed information about a specific property"] in
    let suggestions := suggestions ++ ["Compare these properties"] in
    let locations := set_to_list (map city (firstn 3 properties)) in
    match locations with
    | [] => suggestions
    | first_location :: _ =>
        suggestions ++ [("Show market trends for " ++ first_location)%string]
    end
  else suggestions.

(** The [message] argument is not read. *)
Definition _generate_suggestions (fuel : nat) (message : string)
    (properties : list Property) : option (list string) :=
  match fill_suggestions fuel (property_suggestions properties) with
  | Some suggestions => Some (firstn 4 suggestions)
  | None => None
  end.

End Suggestions.

(** * Specification vocabulary and concrete inputs *)

(** The keys of the fixed table. *)
Definition known_sort_key (key : option string) : bool :=
  match key with
  | None => false
  | Some k => existsb (String.eqb k) (map fst sort_map)
  end.

(** [ceil(a / b)] for a positive [b], as the specification words it. *)
Definition ceil_div (a b : Z) : Z := - ((- a) / b).

(** The keys of the buckets of one terms aggregation of a response. *)
Definition bucket_keys (response : value) (agg : string) : list value :=
  match (b <- getpath response ["aggregations"; agg; "buckets"] ;; iter b) with
  | inr buckets =>
      flat_map (fun bucket => match getitem bucket "key" with
                              | inr k => [k]
                              | inl _ => []
                              end) buckets
  | inl _ => []
  end.

(** ** Concrete requests *)

(** A request whose only filter is [min_price = 0.0]. *)
Definition zero_min_price_request : R.t :=
  R.with_filters (Some (F.with_min_price (Some 0%float) F.default)) R.default.

(** Every numeric filter is set, each to a zero; the property type is
    "condo". *)
Definition all_zero_filters : F.t :=
  F.with_min_price (Some (-0)%float)
    (F.with_max_price (Some 0%float)
       (F.with_bedrooms (Some 0)
          (F.with_bathrooms (Some 0)
             (F.with_property_type (Some "condo") F.default)))).

Definition all_zero_request : R.t :=
  R.with_filters (Some all_zero_filters) R.default.

(** The same price floor and property type, once in the flattened top-level
    fields and once under [filters]. *)
Definition flat_request : R.t :=
  R.with_flat_price_and_type (Some 250000%float) (Some "condo") R.default.

Definition nested_request : R.t :=
  R.with_filters
    (Some (F.with_min_price (Some 250000%float)
             (F.with_property_type (Some "condo") F.default)))
    R.default.

(** ** Concrete backends used to run the operations *)

(** A pydantic stand-in that accepts every JSON object as it is. *)
Definition document_init (d : value) : result value :=
  match d with
  | VDict _ => ret d
  | _ => raise TypeError
  end.

(** A backend that answers every search with [on_search] and every get with
    [on_get]. *)
Definition fixed_backend (on_search on_get : result value) : OpenSearch.t :=
  {| OpenSearch.search := fun _ _ _ => on_search;
     OpenSearch.get := fun _ _ => on_get |}.

Definition engine_on (backend : OpenSearch.t) : PropertySearchEngine :=
  {| client := backend; index_name := "properties" |}.

(** The backend is unreachable. *)
Definition down_engine : PropertySearchEngine :=
  engine_on (fixed_backend (raise ConnectionError) (raise ConnectionError)).






Definition buckets_of (keys : list string) : value :=
  VList (map (fun k => VDict [("key", VStr k); ("doc_count", VInt 1)]) keys).

(** The backend holds listings in the cities Austin and North Austin and in
    the neighborhood Downtown. *)
Definition austin_response : value :=
  VDict [("aggregations",
    VDict [("unique_cities",
            VDict [("buckets", buckets_of ["Austin"; "North Austin"])]);
           ("unique_neighborhoods",
            VDict [("buckets", buckets_of ["Downtown"])])])].

Definition austin_engine : PropertySearchEngine :=
  engine_on (fixed_backend (ret austin_response) (raise NotFoundError)).

Definition metric (v : value) : value := VDict [("value", v)].

(** Two condos in Austin; the backend has no square footage to average. *)
Definition trends_response : value :=
  VDict [("aggregations",
    VDict [("total_properties", metric (VInt 2));
           ("avg_price", metric (VFloat 300000%float));
           ("median_price",
            VDict [("values", VDict [("50.0", VFloat 290000%float)])]);
           ("min_price", metric (VFloat 250000%float));
           ("max_price", metric (VFloat 350000%float));
           ("price_per_sqft", metric VNone);
           ("property_types",
            VDict [("buckets",
              VList [VDict [("key", VStr "condo"); ("doc_count", VInt 2)]])]);
           ("price_ranges",
            VDict [("buckets",
              VList [VDict [("key", VStr "$200K-$400K");
                            ("from", VInt 200000); ("to", VInt 400000);
                            ("doc_count", VInt 2)]])]);
           ("bedrooms_distribution",
            VDict [("buckets",
              VList [VDict [("key", VInt 2); ("doc_count", VInt 2)]])]);
           ("listing_dates",
            VDict [("buckets",
              VList [VDict [("key_as_string", VStr "2024-05-01");
                            ("key", VInt 1714521600000);
                            ("doc_count", VInt 2)]])])])].

Definition trends_engine : PropertySearchEngine :=
  engine_on (fixed_backend (ret trends_response) (raise NotFoundError)).

(** ** A concrete runtime *)

(** An ASCII instance of the runtime interface: [lower] maps A..Z to a..z,
    and a set lists its elements in order of last occurrence. *)
Definition ascii_lower (c : ascii) : ascii :=
  let n := nat_of_ascii c in
  if ((65 <=? n) && (n <=? 90))%nat then ascii_of_nat (n + 32) else c.

Fixpoint ascii_string_lower (s : string) : string :=
  match s with
  | EmptyString => EmptyString
  | String c rest => String (ascii_lower c) (ascii_string_lower rest)
  end.

#[export] Instance ascii_runtime : PyRuntime := {|
  lower := ascii_string_lower;
  set_to_list := nodup string_dec;
  set_to_list_NoDup := NoDup_nodup string_dec;
  set_to_list_In := nodup_In string_dec
|}.

(** ** Further vocabulary *)

(** The string keys of [buckets] that satisfy [p], in bucket order. *)
Definition matching_keys (p : string -> bool) (buckets : list value)
    : list string :=
  flat_map (fun bucket => match getitem bucket "key" with
                          | inr (VStr s) => if p s then [s] else []
                          | _ => []
                          end) buckets.

Definition has_str_key (bucket : value) : Prop :=
  exists s, getitem bucket "key" = inr (VStr s).

(** The must clauses a request compiles to when it has no filters object,
    that is the optional free-text clause. *)
Definition text_clauses (r : R.t) : list value :=
  append_if (opt_truthy str_truthy (R.query r))
    (multi_match (opt_value VStr (R.query r))
       ["title^2"; "description"; "location.address"; "location.city";
        "location.neighborhood"]) [].

(** The shapes of the compiled clauses. *)
Definition is_multi_match (c : value) : Prop :=
  exists q fields, c = multi_match q fields.

Definition is_term_or_range (c : value) : Prop :=
  (exists field v, c = term field v)
  \/ (exists field bounds, c = range field bounds).

(** The same filters with another [amenities] value. *)
Definition filters_with_amenities (a : option (list string)) (f : F.t) : F.t :=
  {| F.location := F.location f; F.min_price := F.min_price f;
     F.max_price := F.max_price f; F.bedrooms := F.bedrooms f;
     F.bathrooms := F.bathrooms f; F.property_type := F.property_type f;
     F.min_sqft := F.min_sqft f; F.max_sqft := F.max_sqft f;
     F.amenities := a |}.

(** The five fields a sort directive can name. *)
Definition sort_fields : list string :=
  ["price"; "listing_date"; "details.bedrooms"; "details.square_feet";
   "_score"].

(** ** Further concrete inputs *)

Definition hit_of (source : value) : value := VDict [("_source", source)].

Definition search_response_of (hits : list value) (total : Z) : value :=
  VDict [("hits", VDict [("total", VDict [("value", VInt total)]);
                         ("hits", VList hits)])].

Definition listing (id : string) : value := VDict [("id", VStr id)].

(** The backend returns two well-formed hits out of 25 matches. *)
Definition two_hits_engine : PropertySearchEngine :=
  engine_on
    (fixed_backend
       (ret (search_response_of [hit_of (listing "p1"); hit_of (listing "p2")]
               25))
       (raise NotFoundError)).

(** The second hit's source is not a document. *)
Definition bad_hit_engine : PropertySearchEngine :=
  engine_on
    (fixed_backend
       (ret (search_response_of [hit_of (listing "p1"); hit_of (VStr "p2")] 2))
       (raise NotFoundError)).

(** A write client that answers every update and delete with the given
    result status, and accepts every index and bulk call. *)
Definition writes_answering (status : result value) : OpenSearchWrites.t :=
  {| OpenSearchWrites.index := fun _ _ _ => ret (VDict [("result", VStr "created")]);
     OpenSearchWrites.update := fun _ _ _ => status;
     OpenSearchWrites.delete := fun _ _ => status;
     OpenSearchWrites.bulk := fun _ => ret (VDict []) |}.

Definition result_status (s : string) : result value :=
  ret (VDict [("result", VStr s)]).

(** The default request, asking for its second page. *)
Definition second_page_request : R.t := {|
  R.query := None; R.filters := None; R.page := 2; R.limit := 10;
  R.sort_by := Some "price"; R.sort_order := Some "asc";
  R.location := None; R.property_type := None; R.min_price := None;
  R.max_price := None; R.min_bedrooms := None; R.max_bedrooms := None;
  R.min_bathrooms := None; R.max_bathrooms := None; R.min_sqft := None;
  R.max_sqft := None; R.amenities := None
|}.

(** The write backend is unreachable. *)
Definition down_writes : OpenSearchWrites.t :=
  writes_answering (raise ConnectionError).

(** Three listings; the last one has no [id]. *)
Definition three_listings : list value :=
  [listing "p1"; listing "p2"; VDict [("title", VStr "Loft")]].

(** One city bucket carries a null key. *)
Definition null_city_engine : PropertySearchEngine :=
  engine_on
    (fixed_backend
       (ret (VDict [("aggregations",
          VDict [("unique_cities",
                  VDict [("buckets",
                    VList [VDict [("key", VStr "Austin");
                                  ("doc_count", VInt 3)];
                           VDict [("key", VNone); ("doc_count", VInt 1)]])]);
                 ("unique_neighborhoods",
                  VDict [("buckets", buckets_of ["Downtown"])])])]))
       (raise NotFoundError)).

(** Filters with both price bounds, an exact bedroom count, a bathroom
    minimum, a property type and a location. *)
Definition full_filters : F.t := {|
  F.location := Some "Austin";
  F.min_price := Some 200000%float; F.max_price := Some 400000%float;
  F.bedrooms := Some 3; F.bathrooms := Some 2;
  F.property_type := Some "house";
  F.min_sqft := None; F.max_sqft := Some 2500;
  F.amenities := Some ["pool"]
|}.

Definition full_request : R.t := R.with_filters (Some full_filters) R.default.

(** Only an upper price bound. *)
Definition max_price_request : R.t :=
  R.with_filters (Some (F.with_max_price (Some 400000%float) F.default))
    R.default.

(** Two sessions, the first with three messages. *)
Definition sample_history : History :=
  [("s1", [("user", "hello"); ("agent", "hi"); ("user", "homes in Austin")]);
   ("s2", [("user", "condos")])].

(** One user with two favorites. *)
Definition sample_favorites : Favorites := [("u1", ["p1"; "p2"])].

(** * Properties of the query builder *)

Lemma nonempty_snoc {A : Type} (l : list A) (x : A) : nonempty (l ++ [x]) = true.
Proof. destruct l; reflexivity. Qed.

(** The compiled query is always the boolean form, and its filter list always
    ends with the status clause: the [match_all] branch is never taken. *)
Lemma build_search_query_shape (r : R.t) :
  exists must_clauses filter_clauses,
    _build_search_query r
    = bool_query must_clauses (filter_clauses ++ [status_active]).
Proof.
  unfold _build_search_query.
  destruct (match R.filters r with
            | Some f => filters_clauses f _ _
            | None => _
            end) as [must_clauses filter_clauses].
  exists must_clauses, filter_clauses.
  rewrite nonempty_snoc, orb_true_r. reflexivity.
Qed.

Lemma filter_of_bool_query (m f : list value) : filter_of (bool_query m f) = f.
Proof. reflexivity. Qed.

Lemma must_of_bool_query (m f : list value) : must_of (bool_query m f) = m.
Proof. reflexivity. Qed.

Lemma build_search_query_never_match_all (r : R.t) :
  _build_search_query r <> match_all.
Proof.
  destruct (build_search_query_shape r) as (m & f & ->). discriminate.
Qed.

(** The builder reads only [query] and [filters] of the request. *)
Lemma build_search_query_reads_query_and_filters (r r' : R.t) :
  R.query r = R.query r' -> R.filters r = R.filters r' ->
  _build_search_query r = _build_search_query r'.
Proof.
  intros Hq Hf. unfold _build_search_query. rewrite Hq, Hf. reflexivity.
Qed.

(** C2: every compiled search query is a boolean query whose filter
    clauses contain the term clause status = "active", whatever the request:
    no free-text query, no filters, or any caller-supplied values. *)
Theorem C2_status_active_always_present (r : R.t) :
  _build_search_query r
  = bool_query (must_of (_build_search_query r))
               (filter_of (_build_search_query r))
  /\ In status_active (filter_of (_build_search_query r)).
Proof.
  destruct (build_search_query_shape r) as (m & f & ->).
  rewrite filter_of_bool_query, must_of_bool_query. split.
  - reflexivity.
  - apply in_or_app. right. left. reflexivity.
Qed.

(** C3, as stated, fails: the request with every field at its default is
    fully empty, and it does not compile to [match_all]. *)
Lemma C3_empty_request_is_not_match_all :
  fully_empty R.default = true
  /\ _build_search_query R.default <> match_all.
Proof. split; [reflexivity | discriminate]. Qed.

(** C3, amended: a fully empty request compiles to the boolean query with
    an empty must list and the status clause as its only filter; it is not
    [match_all]. *)
Theorem C3_empty_request_compiles_to_status_filter (r : R.t) :
  fully_empty r = true ->
  _build_search_query r = bool_query [] [status_active]
  /\ _build_search_query r <> match_all.
Proof.
  intros H. split; [| apply build_search_query_never_match_all].
  unfold fully_empty in H. unfold _build_search_query.
  destruct (R.query r); [discriminate |].
  destruct (R.filters r) as [f |]; [| reflexivity].
  unfold filters_clauses.
  destruct (F.location f), (F.min_price f), (F.max_price f), (F.bedrooms f),
    (F.bathrooms f), (F.property_type f), (F.min_sqft f), (F.max_sqft f);
    try discriminate.
  reflexivity.
Qed.

Lemma C3_empty_request_witness :
  _build_search_query (R.with_filters (Some F.default) R.default)
  = bool_query [] [status_active]
  /\ _build_search_query (R.with_filters (Some F.default) R.default)
     <> match_all.
Proof.
  apply (C3_empty_request_compiles_to_status_filter
           (R.with_filters (Some F.default) R.default)).
  reflexivity.
Defined.

(** The filter clauses a request with filters compiles to. *)
Lemma filter_of_build_with_filters (r : R.t) (f : F.t) :
  R.filters r = Some f ->
  filter_of (_build_search_query r)
  = snd (filters_clauses f [] []) ++ [status_active].
Proof.
  intros Hf. unfold _build_search_query. rewrite Hf.
  assert (Hmust : forall m m', snd (filters_clauses f m []) 
                               = snd (filters_clauses f m' [])) by reflexivity.
  rewrite (Hmust [] (append_if (opt_truthy str_truthy (R.query r))
                       (multi_match (opt_value VStr (R.query r))
                          ["title^2"; "description"; "location.address";
                           "location.city"; "location.neighborhood"]) [])).
  destruct (filters_clauses f _ []) as [m fs]. simpl snd.
  rewrite nonempty_snoc, orb_true_r. reflexivity.
Qed.

Lemma in_append_if {A : Type} (c : bool) (x y : A) (l : list A) :
  In y l -> In y (append_if c x l).
Proof.
  intros H. unfold append_if. destruct c; [| exact H].
  apply in_or_app. left. exact H.
Qed.

Lemma in_append_if_true {A : Type} (x : A) (l : list A) :
  In x (append_if true x l).
Proof. apply in_or_app. right. left. reflexivity. Qed.

(** C5, as stated, fails: with [min_price = 0.0] and [max_price] unset, no
    range clause on price is compiled; the only filter is the status clause. *)
Lemma C5_zero_min_price_has_no_range_clause :
  (exists f, R.filters zero_min_price_request = Some f
             /\ F.min_price f = Some 0%float /\ F.max_price f = None)
  /\ filter_of (_build_search_query zero_min_price_request) = [status_active]
  /\ ~ In (range "price" [("gte", VFloat 0%float)])
          (filter_of (_build_search_query zero_min_price_request)).
Proof.
  split; [eexists; repeat split |]. split; [reflexivity |].
  intros [H | []]. discriminate H.
Qed.

(** C5, amended: when the filters set [min_price] to a value that is not
    zero and leave [max_price] unset, the compiled query has the filter
    clause range price with the single bound gte = min_price. *)
Theorem C5_min_price_only_range (r : R.t) (f : F.t) (lo : float) :
  R.filters r = Some f ->
  F.min_price f = Some lo ->
  F.max_price f = None ->
  float_is_zero lo = false ->
  In (range "price" [("gte", VFloat lo)]) (filter_of (_build_search_query r)).
Proof.
  intros Hf Hmin Hmax Hnz.
  rewrite (filter_of_build_with_filters r f Hf).
  apply in_or_app. left.
  unfold filters_clauses. rewrite Hmin, Hmax. simpl snd.
  unfold range_bounds, opt_truthy, float_truthy.
  unfold float_is_zero in Hnz. rewrite Hnz. simpl negb. simpl orb.
  do 4 apply in_append_if.
  apply in_append_if_true.
Qed.

Lemma C5_min_price_only_range_witness :
  In (range "price" [("gte", VFloat 250000%float)])
     (filter_of (_build_search_query
        (R.with_filters
           (Some (F.with_min_price (Some 250000%float) F.default))
           R.default))).
Proof.
  apply (C5_min_price_only_range
           (R.with_filters
              (Some (F.with_min_price (Some 250000%float) F.default))
              R.default)
           (F.with_min_price (Some 250000%float) F.default)
           250000%float); reflexivity.
Defined.

Ltac unfold_builder :=
  unfold _build_search_query, R.with_filters, filters_clauses, range_bounds,
    F.with_min_price, F.with_max_price, F.with_bedrooms, F.with_bathrooms;
  cbn [R.query R.filters F.location F.min_price F.max_price F.bedrooms
       F.bathrooms F.property_type F.min_sqft F.max_sqft opt_truthy].

(** Setting a field to the value it already has changes nothing. *)
Lemma with_min_price_same (f : F.t) (v : option float) :
  F.min_price f = v -> F.with_min_price v f = f.
Proof. destruct f. simpl. intros ->. reflexivity. Qed.

Lemma with_max_price_same (f : F.t) (v : option float) :
  F.max_price f = v -> F.with_max_price v f = f.
Proof. destruct f. simpl. intros ->. reflexivity. Qed.

Lemma with_bedrooms_same (f : F.t) (v : option Z) :
  F.bedrooms f = v -> F.with_bedrooms v f = f.
Proof. destruct f. simpl. intros ->. reflexivity. Qed.

Lemma with_bathrooms_same (f : F.t) (v : option Z) :
  F.bathrooms f = v -> F.with_bathrooms v f = f.
Proof. destruct f. simpl. intros ->. reflexivity. Qed.

Lemma build_with_own_filters (r : R.t) (f : F.t) :
  R.filters r = Some f ->
  _build_search_query r = _build_search_query (R.with_filters (Some f) r).
Proof.
  intros Hf. apply build_search_query_reads_query_and_filters;
    [reflexivity | exact Hf].
Qed.

(** Overwriting a numeric filter with a zero or with [None] compiles the same
    query. *)
Lemma zero_or_none_compile_alike (r : R.t) (f : F.t) (z : float) :
  float_is_zero z = true ->
  _build_search_query (R.with_filters (Some (F.with_min_price (Some z) f)) r)
  = _build_search_query (R.with_filters (Some (F.with_min_price None f)) r)
  /\
  _build_search_query (R.with_filters (Some (F.with_max_price (Some z) f)) r)
  = _build_search_query (R.with_filters (Some (F.with_max_price None f)) r)
  /\
  _build_search_query (R.with_filters (Some (F.with_bedrooms (Some 0) f)) r)
  = _build_search_query (R.with_filters (Some (F.with_bedrooms None f)) r)
  /\
  _build_search_query (R.with_filters (Some (F.with_bathrooms (Some 0) f)) r)
  = _build_search_query (R.with_filters (Some (F.with_bathrooms None f)) r).
Proof.
  intros Hz.
  assert (Hf : float_truthy z = false)
    by (unfold float_truthy; unfold float_is_zero in Hz; rewrite Hz;
        reflexivity).
  split; [| split; [| split]]; unfold_builder; rewrite ?Hf; cbn [orb].
  - destruct (opt_truthy float_truthy (F.max_price f)); reflexivity.
  - rewrite !orb_false_r.
    destruct (opt_truthy float_truthy (F.min_price f)); reflexivity.
  - reflexivity.
  - reflexivity.
Qed.

(** C10: a numeric filter set to zero compiles like the same filter left
    unset.  For a request with filters [f], and for each of [min_price],
    [max_price] (a float equal to zero, of either sign), [bedrooms] and
    [bathrooms] (the integer 0): if [f] has that field at zero, the compiled
    query is identical to the one compiled from the same request with that
    field of [f] reset to [None]. *)
Theorem C10_zero_filter_is_unset (r : R.t) (f : F.t) :
  R.filters r = Some f ->
  (forall z, F.min_price f = Some z -> float_is_zero z = true ->
     _build_search_query r
     = _build_search_query
         (R.with_filters (Some (F.with_min_price None f)) r))
  /\
  (forall z, F.max_price f = Some z -> float_is_zero z = true ->
     _build_search_query r
     = _build_search_query
         (R.with_filters (Some (F.with_max_price None f)) r))
  /\
  (F.bedrooms f = Some 0 ->
     _build_search_query r
     = _build_search_query
         (R.with_filters (Some (F.with_bedrooms None f)) r))
  /\
  (F.bathrooms f = Some 0 ->
     _build_search_query r
     = _build_search_query
         (R.with_filters (Some (F.with_bathrooms None f)) r)).
Proof.
  intros Hf. rewrite (build_with_own_filters r f Hf).
  split; [| split; [| split]].
  - intros z Hv Hz.
    rewrite <- (with_min_price_same f (Some z) Hv) at 1.
    apply (zero_or_none_compile_alike r f z Hz).
  - intros z Hv Hz.
    rewrite <- (with_max_price_same f (Some z) Hv) at 1.
    apply (zero_or_none_compile_alike r f z Hz).
  - intros Hv.
    rewrite <- (with_bedrooms_same f (Some 0) Hv) at 1.
    apply (zero_or_none_compile_alike r f 0%float eq_refl).
  - intros Hv.
    rewrite <- (with_bathrooms_same f (Some 0) Hv) at 1.
    apply (zero_or_none_compile_alike r f 0%float eq_refl).
Qed.

Lemma C10_zero_filter_is_unset_witness :
  let r := all_zero_request in
  let f := all_zero_filters in
  _build_search_query r
  = _build_search_query (R.with_filters (Some (F.with_min_price None f)) r)
  /\
  _build_search_query r
  = _build_search_query (R.with_filters (Some (F.with_max_price None f)) r)
  /\
  _build_search_query r
  = _build_search_query (R.with_filters (Some (F.with_bedrooms None f)) r)
  /\
  _build_search_query r
  = _build_search_query (R.with_filters (Some (F.with_bathrooms None f)) r).
Proof.
  destruct (C10_zero_filter_is_unset all_zero_request all_zero_filters
              eq_refl) as (Hmin & Hmax & Hbed & Hbath).
  split; [| split; [| split]].
  - apply (Hmin (-0)%float); reflexivity.
  - apply (Hmax 0%float); reflexivity.
  - apply Hbed. reflexivity.
  - apply Hbath. reflexivity.
Defined.

(** C6 at a concrete input: the flattened fields contribute no clause.  The
    flat request compiles to the query of the empty request, while its nested
    equivalent carries the price range and the property type clauses. *)
Theorem C6_flat_fields_contribute_no_clause :
  R.min_price flat_request = Some 250000%float
  /\ R.property_type flat_request = Some "condo"
  /\ _build_search_query flat_request = bool_query [] [status_active]
  /\ _build_search_query nested_request
     = bool_query []
         [range "price" [("gte", VFloat 250000%float)];
          term "details.property_type" (VStr "condo");
          status_active]
  /\ _build_search_query flat_request <> _build_search_query nested_request.
Proof.
  repeat split. discriminate.
Qed.

(** * Properties of the sort planner *)

Lemma sort_map_get_unknown (key : option string) (default : string) :
  known_sort_key key = false -> sort_map_get key default = default.
Proof.
  destruct key as [k |]; [| reflexivity].
  unfold known_sort_key, sort_map_get, sort_map. cbn [map fst existsb assoc].
  intros H.
  repeat (apply orb_false_elim in H; destruct H as [-> H]).
  reflexivity.
Qed.

(** C4, as stated, fails in its second half: an unrecognized key with the
    requested direction "desc" sorts on price descending, not ascending. *)
Lemma C4_unknown_key_keeps_requested_direction :
  known_sort_key (Some "popularity") = false
  /\ _build_sort_criteria (Some "popularity") (Some "desc")
     = sort_directive "price" "desc"
  /\ _build_sort_criteria (Some "popularity") (Some "desc")
     <> sort_directive "price" "asc".
Proof. repeat split. discriminate. Qed.

(** C4, amended: for every requested direction the key "relevance" compiles
    to a descending sort on [_score]; every key outside the table (and an
    absent key) compiles to a sort on the price field in the requested
    direction, descending exactly when the direction is "desc" and ascending
    otherwise. *)
Theorem C4_relevance_desc_and_unknown_key_price :
  (forall sort_order : option string,
     _build_sort_criteria (Some "relevance") sort_order
     = sort_directive "_score" "desc")
  /\
  (forall key sort_order : option string,
     known_sort_key key = false ->
     _build_sort_criteria key sort_order
     = sort_directive "price"
         (if opt_str_eqb sort_order "desc" then "desc" else "asc")).
Proof.
  split; [reflexivity |].
  intros key sort_order Hk.
  unfold _build_sort_criteria. rewrite (sort_map_get_unknown key "price" Hk).
  reflexivity.
Qed.

Lemma C4_relevance_desc_and_unknown_key_price_witness :
  _build_sort_criteria (Some "relevance") (Some "asc")
  = sort_directive "_score" "desc"
  /\ _build_sort_criteria (Some "popularity") (Some "asc")
     = sort_directive "price" "asc".
Proof.
  split.
  - exact (proj1 C4_relevance_desc_and_unknown_key_price (Some "asc")).
  - apply (proj2 C4_relevance_desc_and_unknown_key_price
             (Some "popularity") (Some "asc")).
    reflexivity.
Defined.

(** * Properties of the engine operations *)

Lemma ceil_div_spec (a b : Z) :
  0 < b -> (ceil_div a b - 1) * b < a <= ceil_div a b * b.
Proof.
  intros Hb. unfold ceil_div.
  pose proof (Z.div_mod (- a) b ltac:(lia)) as Hdm.
  pose proof (Z.mod_pos_bound (- a) b Hb) as Hr.
  nia.
Qed.

(** The engine's page count, [(total + limit - 1) // limit], is the ceiling
    of [total / limit]. *)
Lemma page_count_is_ceil_div (t l : Z) :
  0 < l -> (t + l - 1) / l = ceil_div t l.
Proof.
  intros Hl. unfold ceil_div.
  pose proof (Z.div_mod (t + l - 1) l ltac:(lia)) as H1.
  pose proof (Z.mod_pos_bound (t + l - 1) l Hl) as R1.
  pose proof (Z.div_mod (- t) l ltac:(lia)) as H2.
  pose proof (Z.mod_pos_bound (- t) l Hl) as R2.
  nia.
Qed.

Lemma bind_inr {A B : Type} (m : result A) (k : A -> result B) (b : B) :
  bind m k = inr b -> exists a, m = inr a /\ k a = inr b.
Proof.
  destruct m as [e | a]; simpl; intros H; [discriminate |].
  exists a. split; [reflexivity | exact H].
Qed.

Ltac bind_inv H :=
  let a := fresh "a" in
  let Ha := fresh "Ha" in
  apply bind_inr in H; destruct H as (a & Ha & H).

Section EngineProperties.

Context {Property : Type} (Property_init : value -> result Property).

(** What a returned search response is made of: the total is the match count
the backend reported, page and limit are the request's, and the page count
is computed from total and limit. *)
Lemma search_properties_inr (self : PropertySearchEngine) (req : R.t)
    (resp : Resp.t Property) :
  search_properties Property_init self req = inr resp ->
  R.limit req <> 0
  /\ (exists response,
        OpenSearch.search (client self) (index_name self) (search_body req)
          None = inr response
        /\ getpath response ["hits"; "total"; "value"]
           = inr (VInt (Resp.total resp)))
  /\ Resp.page resp = R.page req
  /\ Resp.limit resp = R.limit req
  /\ Resp.total_pages resp = (Resp.total resp + R.limit req - 1) / R.limit req.
Proof.
  unfold search_properties. intros H.
  bind_inv H. rename a into response, Ha into Hresponse.
  do 3 bind_inv H.
  bind_inv H. rename a2 into tv, Ha2 into Htv.
  bind_inv H. rename a2 into t, Ha2 into Ht.
  bind_inv H.
  destruct tv; try discriminate Ht. injection Ht as ->.
  unfold floordiv in Ha2.
  destruct (R.limit req =? 0) eqn:Hl; [discriminate |].
  apply Z.eqb_neq in Hl.
  injection Ha2 as <-. injection H as <-. simpl.
  split; [exact Hl |]. split; [| auto].
  exists response. auto.
Qed.

(** A well-formed backend response always yields a search response. *)
Lemma search_properties_returns (self : PropertySearchEngine) (req : R.t)
    (response : value) (hits : list value) (ps : list Property) (t : Z) :
  OpenSearch.search (client self) (index_name self) (search_body req) None
  = inr response ->
  getpath response ["hits"; "hits"] = inr (VList hits) ->
  mapM (property_of_hit Property_init) hits = inr ps ->
  getpath response ["hits"; "total"; "value"] = inr (VInt t) ->
  R.limit req <> 0 ->
  search_properties Property_init self req
  = inr {| Resp.properties := ps; Resp.total := t; Resp.page := R.page req;
           Resp.limit := R.limit req;
           Resp.total_pages := (t + R.limit req - 1) / R.limit req |}.
Proof.
  intros Hs Hh Hm Ht Hl. unfold search_properties.
  rewrite Hs. cbn [bind]. rewrite Hh. cbn [bind iter ret].
  rewrite Hm. cbn [bind]. rewrite Ht. cbn [bind as_int ret].
  unfold floordiv. apply Z.eqb_neq in Hl. rewrite Hl. reflexivity.
Qed.


End EngineProperties.


Section LookupProperties.

Context {Property : Type} (Property_init : value -> result Property).

(** A property is returned exactly when the backend returned a document
    whose [_source] validates. *)
Lemma get_property_by_id_some (self : PropertySearchEngine) (id : string)
    (p : Property) :
  get_property_by_id Property_init self id = Some p <->
  exists response src,
    OpenSearch.get (client self) (index_name self) id = inr response
    /\ getitem response "_source" = inr src
    /\ Property_init src = inr p.
Proof.
  unfold get_property_by_id, try_except. split.
  - destruct (OpenSearch.get _ _ _) as [e | response]; simpl;
      [discriminate |].
    destruct (getitem response "_source") as [e | src] eqn:Hs; simpl;
      [discriminate |].
    destruct (Property_init src) as [e | q] eqn:Hp; simpl; [discriminate |].
    intros [= ->]. exists response, src. auto.
  - intros (response & src & -> & Hs & Hp). simpl.
    rewrite Hs. simpl. rewrite Hp. reflexivity.
Qed.


End LookupProperties.


(** ** Location trends *)

(** A response without the [aggregations] key is handled like a failure of
    the call: the zero-valued summary is returned. *)
Lemma get_location_trends_malformed_response (self : PropertySearchEngine)
    (location : string) (property_type : option string) (time_period : string)
    (response : value) (e : exn) :
  OpenSearch.search (client self) (index_name self)
    (trends_query location property_type) (Some 0) = inr response ->
  getitem response "aggregations" = inl e ->
  get_location_trends self location property_type time_period
  = trends_envelope location property_type time_period empty_summary.
Proof.
  intros Hs Ha. unfold get_location_trends. rewrite Hs. cbn [bind].
  rewrite Ha. reflexivity.
Qed.

(** On a well-formed response the summary is read off the aggregations, and
    an absent metric is replaced by 0. *)
Example trends_for_austin :
  get_location_trends trends_engine "Austin" None "1year"
  = trends_envelope "Austin" None "1year"
      [("total_properties", VInt 2);
       ("average_price", VFloat 300000%float);
       ("median_price", VFloat 290000%float);
       ("min_price", VFloat 250000%float);
       ("max_price", VFloat 350000%float);
       ("avg_price_per_sqft", VInt 0);
       ("property_types",
        VList [VDict [("type", VStr "condo"); ("count", VInt 2)]]);
       ("price_ranges",
        VList [VDict [("range", VStr "$200K-$400K"); ("count", VInt 2)]]);
       ("bedrooms_distribution",
        VList [VDict [("bedrooms", VInt 2); ("count", VInt 2)]]);
       ("monthly_listings",
        VList [VDict [("month", VStr "2024-05-01"); ("count", VInt 2)]])].
Proof. reflexivity. Qed.

(** C7: when the backend call raises, [get_location_trends] returns the
    full structure: the three request labels, and a summary in which
    [total_properties] and each of the five price metrics is 0 and each of
    the four bucket lists is empty.  No error reaches the caller. *)
Theorem C7_backend_failure_gives_zero_trends (self : PropertySearchEngine)
    (location : string) (property_type : option string) (time_period : string)
    (e : exn) :
  OpenSearch.search (client self) (index_name self)
    (trends_query location property_type) (Some 0) = inl e ->
  let out := get_location_trends self location property_type time_period in
  getitem out "location" = inr (VStr location)
  /\ getitem out "property_type" = inr (opt_value VStr property_type)
  /\ getitem out "time_period" = inr (VStr time_period)
  /\ getpath out ["summary"; "total_properties"] = inr (VInt 0)
  /\ Forall (fun metric => getpath out ["summary"; metric] = inr (VInt 0))
       ["average_price"; "median_price"; "min_price"; "max_price";
        "avg_price_per_sqft"]
  /\ Forall (fun buckets => getpath out ["summary"; buckets] = inr (VList []))
       ["property_types"; "price_ranges"; "bedrooms_distribution";
        "monthly_listings"].
Proof.
  intros H out. subst out. unfold get_location_trends. rewrite H.
  cbn [bind try_except].
  repeat split; repeat constructor.
Qed.

Lemma C7_backend_failure_gives_zero_trends_witness :
  let out := get_location_trends down_engine "Austin" (Some "condo") "1year" in
  getitem out "location" = inr (VStr "Austin")
  /\ getitem out "property_type" = inr (VStr "condo")
  /\ getitem out "time_period" = inr (VStr "1year")
  /\ getpath out ["summary"; "total_properties"] = inr (VInt 0)
  /\ Forall (fun metric => getpath out ["summary"; metric] = inr (VInt 0))
       ["average_price"; "median_price"; "min_price"; "max_price";
        "avg_price_per_sqft"]
  /\ Forall (fun buckets => getpath out ["summary"; buckets] = inr (VList []))
       ["property_types"; "price_ranges"; "bedrooms_distribution";
        "monthly_listings"].
Proof.
  apply (C7_backend_failure_gives_zero_trends down_engine "Austin"
           (Some "condo") "1year" ConnectionError).
  reflexivity.
Defined.

(** ** Location suggestions *)

Lemma firstn_In {A : Type} (n : nat) (l : list A) (x : A) :
  In x (firstn n l) -> In x l.
Proof.
  revert l. induction n as [| n IH]; intros [| y l]; simpl; try tauto.
  intros [H | H]; [left; exact H | right; apply IH; exact H].
Qed.

Lemma firstn_NoDup {A : Type} (n : nat) (l : list A) :
  NoDup l -> NoDup (firstn n l).
Proof.
  revert l. induction n as [| n IH]; intros [| y l] H; simpl;
    try constructor.
  - inversion H; subst. intros Hin. apply firstn_In in Hin. contradiction.
  - inversion H; subst. apply IH. assumption.
Qed.

Lemma slice_to_In {A : Type} (l : list A) (n : Z) (x : A) :
  In x (slice_to l n) -> In x l.
Proof. unfold slice_to. destruct (0 <=? n); apply firstn_In. Qed.

Lemma slice_to_NoDup {A : Type} (l : list A) (n : Z) :
  NoDup l -> NoDup (slice_to l n).
Proof. unfold slice_to. destruct (0 <=? n); apply firstn_NoDup. Qed.

Lemma slice_to_length {A : Type} (l : list A) (n : Z) :
  0 <= n -> Z.of_nat (List.length (slice_to l n)) <= n.
Proof.
  intros Hn. unfold slice_to.
  destruct (0 <=? n) eqn:E; [| lia].
  rewrite length_firstn. lia.
Qed.

(** A negative bound drops that many elements from the end. *)
Lemma slice_to_negative_length {A : Type} (l : list A) (n : Z) :
  n < 0 ->
  Z.of_nat (List.length (slice_to l n))
  = Z.max 0 (Z.of_nat (List.length l) + n).
Proof.
  intros Hn. unfold slice_to.
  destruct (0 <=? n) eqn:E; [lia |].
  rewrite length_firstn. lia.
Qed.

Section SuggestionProperties.

Context {RT : PyRuntime}.

Lemma lower_of_inr (key : value) (k : string) :
  lower_of key = inr k -> exists s, key = VStr s /\ k = lower s.
Proof.
  destruct key; simpl; try discriminate.
  intros [= <-]. eexists. split; reflexivity.
Qed.

Lemma add_city_appends_match (query : string) :
  appends_match query (add_city query).
Proof.
  intros acc bucket out H. unfold add_city in H.
  bind_inv H. bind_inv H.
  apply lower_of_inr in Ha0. destruct Ha0 as (s & -> & ->).
  destruct (contains (lower query) (lower s)) eqn:Hc.
  - injection H as <-. right. exists s. auto.
  - injection H as <-. left. reflexivity.
Qed.

Lemma add_neighborhood_appends_match (query : string) :
  appends_match query (add_neighborhood query).
Proof.
  intros acc bucket out H. unfold add_neighborhood in H.
  bind_inv H.
  destruct (truthy a); [| injection H as <-; left; reflexivity].
  bind_inv H.
  apply lower_of_inr in Ha0. destruct Ha0 as (s & -> & ->).
  destruct (contains (lower query) (lower s)) eqn:Hc.
  - injection H as <-. right. exists s. auto.
  - injection H as <-. left. reflexivity.
Qed.

(** Everything a loop adds is the key of one of its buckets and contains
    the query. *)
Lemma for_each_collects (query : string)
    (body : list string -> value -> result (list string)) :
  appends_match query body ->
  forall buckets acc out,
    for_each body buckets acc = inr out ->
    forall s, In s out ->
      In s acc
      \/ (contains (lower query) (lower s) = true
          /\ exists bucket, In bucket buckets
                            /\ getitem bucket "key" = inr (VStr s)).
Proof.
  intros Hbody. induction buckets as [| bucket rest IH];
    intros acc out H s Hs; simpl in H.
  - injection H as <-. left. exact Hs.
  - bind_inv H.
    destruct (IH _ _ H s Hs) as [Hin | (Hc & b & Hb & Hk)].
    + destruct (Hbody _ _ _ Ha) as [-> | (s' & Hk & Hc & ->)].
      * left. exact Hin.
      * apply in_app_or in Hin. destruct Hin as [Hin | [<- | []]].
        -- left. exact Hin.
        -- right. split; [exact Hc |]. exists bucket. split;
             [left; reflexivity | exact Hk].
    + right. split; [exact Hc |]. exists b. split; [right; exact Hb | exact Hk].
Qed.

Lemma bucket_keys_In (response b : value) (agg : string)
    (buckets : list value) (bucket : value) (s : string) :
  getpath response ["aggregations"; agg; "buckets"] = inr b ->
  iter b = inr buckets ->
  In bucket buckets ->
  getitem bucket "key" = inr (VStr s) ->
  In (VStr s) (bucket_keys response agg).
Proof.
  intros Hp Hi Hin Hk. unfold bucket_keys. rewrite Hp. cbn [bind].
  rewrite Hi. apply in_flat_map. exists bucket. split; [exact Hin |].
  rewrite Hk. left. reflexivity.
Qed.

(** The list built from a response, before the [except] clause. *)
Lemma suggestions_of_response_inr (query : string) (limit : Z)
    (response : value) (out : list string) :
  suggestions_of_response query limit response = inr out ->
  NoDup out
  /\ (0 <= limit -> Z.of_nat (List.length out) <= limit)
  /\ forall s, In s out ->
       contains (lower query) (lower s) = true
       /\ In (VStr s) (bucket_keys response "unique_cities"
                       ++ bucket_keys response "unique_neighborhoods").
Proof.
  unfold suggestions_of_response. intros H.
  bind_inv H. rename a into cb, Ha into Hcb.
  bind_inv H. rename a into cities, Ha into Hcities.
  bind_inv H. rename a into acc1, Ha into Hacc1.
  bind_inv H. rename a into nb, Ha into Hnb.
  bind_inv H. rename a into hoods, Ha into Hhoods.
  bind_inv H. rename a into acc2, Ha into Hacc2.
  injection H as <-.
  split; [apply slice_to_NoDup, set_to_list_NoDup |].
  split; [intros Hl; apply slice_to_length; exact Hl |].
  intros s Hs. apply slice_to_In in Hs.
  apply (proj1 (set_to_list_In _ _)) in Hs.
  destruct (for_each_collects query _ (add_neighborhood_appends_match query)
              _ _ _ Hacc2 s Hs) as [Hin | (Hc & b & Hb & Hk)].
  - destruct (for_each_collects query _ (add_city_appends_match query)
                _ _ _ Hacc1 s Hin) as [[] | (Hc & b & Hb & Hk)].
    split; [exact Hc |]. apply in_or_app. left.
    exact (bucket_keys_In _ _ _ _ _ _ Hcb Hcities Hb Hk).
  - split; [exact Hc |]. apply in_or_app. right.
    exact (bucket_keys_In _ _ _ _ _ _ Hnb Hhoods Hb Hk).
Qed.

(** C8: for every query string and every limit, a number of results and
    so not negative, the result of [get_location_suggestions] has no
    duplicates and at most [limit] elements; each element contains the
    query as a substring once both are lower-cased, and is the key of a
    city or neighborhood bucket of the backend's response; and when the
    backend call raises, the result is the empty list. *)
Theorem C8_suggestions (self : PropertySearchEngine) (query : string)
    (limit : Z) :
  0 <= limit ->
  let backend :=
    OpenSearch.search (client self) (index_name self)
      (suggestions_query query limit) None in
  let out := get_location_suggestions self query limit in
  NoDup out
  /\ Z.of_nat (List.length out) <= limit
  /\ (forall s, In s out ->
        contains (lower query) (lower s) = true
        /\ exists response,
             backend = inr response
             /\ In (VStr s) (bucket_keys response "unique_cities"
                             ++ bucket_keys response "unique_neighborhoods"))
  /\ (forall e, backend = inl e -> out = []).
Proof.
  intros Hl backend out. subst backend out.
  unfold get_location_suggestions.
  destruct (OpenSearch.search _ _ _ _) as [e | response]; cbn [bind].
  - cbn [try_except].
    split; [constructor |]. split; [simpl; lia |].
    split; [intros s [] | reflexivity].
  - destruct (suggestions_of_response query limit response) as [e | out]
      eqn:Hout; cbn [try_except].
    + split; [constructor |]. split; [simpl; lia |].
      split; [intros s [] | reflexivity].
    + destruct (suggestions_of_response_inr _ _ _ _ Hout) as (Hnd & Hlen & Hin).
      split; [exact Hnd |]. split; [exact (Hlen Hl) |].
      split; [| discriminate].
      intros s Hs. destruct (Hin s Hs) as [Hc Hk].
      split; [exact Hc |]. exists response. auto.
Qed.

End SuggestionProperties.

Lemma C8_suggestions_witness :
  let backend :=
    OpenSearch.search (client austin_engine) (index_name austin_engine)
      (suggestions_query "austin" 1) None in
  let out := get_location_suggestions austin_engine "austin" 1 in
  NoDup out
  /\ Z.of_nat (List.length out) <= 1
  /\ (forall s, In s out ->
        contains (lower "austin") (lower s) = true
        /\ exists response,
             backend = inr response
             /\ In (VStr s) (bucket_keys response "unique_cities"
                             ++ bucket_keys response "unique_neighborhoods"))
  /\ (forall e, backend = inl e -> out = []).
Proof.
  apply (C8_suggestions austin_engine "austin" 1). lia.
Defined.

(** The query "Austin" against the cities Austin and North Austin and the
    neighborhood Downtown: both cities are suggested, Downtown is not. *)
Example suggestions_for_austin :
  let out := get_location_suggestions austin_engine "Austin" 10 in
  In "Austin" out /\ In "North Austin" out /\ ~ In "Downtown" out.
Proof.
  simpl. repeat split; auto.
  intros [H | [H | []]]; discriminate H.
Qed.

Example suggestions_backend_down :
  get_location_suggestions down_engine "Austin" 10 = [].
Proof. reflexivity. Qed.

(** * Further properties *)

(** ** Helpers on the loops *)

Lemma mapM_Forall2 {A B : Type} (f : A -> result B) (xs : list A)
    (ys : list B) :
  mapM f xs = inr ys <-> Forall2 (fun x y => f x = inr y) xs ys.
Proof.
  revert ys. induction xs as [| x xs IH]; intros ys; simpl; split.
  - intros [= <-]. constructor.
  - intros H. inversion H. reflexivity.
  - intros H. bind_inv H. bind_inv H. injection H as <-.
    constructor; [exact Ha | apply IH; exact Ha0].
  - intros H. inversion H as [| x' y l l' Hxy Hrest]; subst.
    rewrite Hxy. cbn [bind]. apply IH in Hrest. rewrite Hrest. reflexivity.
Qed.

Lemma mapM_fails {A B : Type} (f : A -> result B) (xs : list A) (x : A)
    (e : exn) :
  In x xs -> f x = inl e -> exists e', mapM f xs = inl e'.
Proof.
  induction xs as [| y xs IH]; simpl; [tauto |].
  intros [-> | Hin] Hf.
  - rewrite Hf. eexists. reflexivity.
  - destruct (f y) as [e1 | b]; [eexists; reflexivity |]. cbn [bind].
    destruct (IH Hin Hf) as [e' ->]. eexists. reflexivity.
Qed.

(** A loop that appends one computed element per pass is a [mapM]. *)
Lemma for_each_append {A B : Type} (f : A -> result B) (xs : list A)
    (acc : list B) :
  for_each (fun acc x => a <- f x ;; ret (acc ++ [a])) xs acc
  = (ys <- mapM f xs ;; ret (acc ++ ys)).
Proof.
  revert acc. induction xs as [| x xs IH]; intros acc; simpl.
  - rewrite app_nil_r. reflexivity.
  - destruct (f x) as [e | b]; [reflexivity |]. cbn [bind ret].
    rewrite IH. destruct (mapM f xs) as [e | ys]; [reflexivity |].
    cbn [bind ret]. rewrite <- app_assoc. reflexivity.
Qed.

(** ** Search results *)

Section SearchProperties.

Context {Property : Type} (Property_init : value -> result Property).

(** X1: a returned search response holds one property per hit of the
    backend's response, in the backend's order, each the validated
    [_source] of its hit: no hit is dropped or reordered. *)
Theorem X1_search_keeps_every_hit (self : PropertySearchEngine) (req : R.t)
    (resp : Resp.t Property) :
  search_properties Property_init self req = inr resp ->
  exists response hits,
    OpenSearch.search (client self) (index_name self) (search_body req) None
    = inr response
    /\ (h <- getpath response ["hits"; "hits"] ;; iter h) = inr hits
    /\ Forall2 (fun hit p => property_of_hit Property_init hit = inr p)
         hits (Resp.properties resp)
    /\ List.length (Resp.properties resp) = List.length hits.
Proof.
  unfold search_properties. intros H.
  bind_inv H. rename a into response, Ha into Hresponse.
  bind_inv H. rename a into h, Ha into Hh.
  bind_inv H. rename a into hits, Ha into Hhits.
  bind_inv H. rename a into ps, Ha into Hps.
  do 3 bind_inv H. injection H as <-. cbn [Resp.properties].
  apply mapM_Forall2 in Hps.
  exists response, hits. split; [exact Hresponse |].
  split; [rewrite Hh; exact Hhits |].
  split; [exact Hps |].
  symmetry. exact (Forall2_length Hps).
Qed.

(** X2: search does not degrade.  When the backend call raises, the same
    exception leaves [search_properties]; and when one hit of the response
    fails validation, the whole call fails, however many other hits are
    valid. *)
Theorem X2_search_failures_propagate (self : PropertySearchEngine)
    (req : R.t) :
  (forall e,
     OpenSearch.search (client self) (index_name self) (search_body req) None
     = inl e ->
     search_properties Property_init self req = inl e)
  /\
  (forall response hits hit e,
     OpenSearch.search (client self) (index_name self) (search_body req) None
     = inr response ->
     (h <- getpath response ["hits"; "hits"] ;; iter h) = inr hits ->
     In hit hits ->
     property_of_hit Property_init hit = inl e ->
     exists e', search_properties Property_init self req = inl e').
Proof.
  split.
  - intros e H. unfold search_properties. rewrite H. reflexivity.
  - intros response hits hit e Hs Hh Hin Hbad. unfold search_properties.
    rewrite Hs. cbn [bind].
    destruct (getpath response ["hits"; "hits"]) as [e0 | h];
      [discriminate |]. cbn [bind] in Hh |- *. rewrite Hh. cbn [bind].
    destruct (mapM_fails _ _ _ _ Hin Hbad) as [e' ->].
    exists e'. reflexivity.
Qed.

(** X4: the pages cover the matches exactly.  In a returned response with a
    positive total and a limit of at least 1, there is at least one page, the
    last page starts before the end of the matches, and the pages together
    reach the end. *)
Theorem X4_last_page_is_not_empty (self : PropertySearchEngine) (req : R.t)
    (resp : Resp.t Property) :
  search_properties Property_init self req = inr resp ->
  0 < Resp.total resp ->
  1 <= R.limit req ->
  1 <= Resp.total_pages resp
  /\ (Resp.total_pages resp - 1) * R.limit req < Resp.total resp
  /\ Resp.total resp <= Resp.total_pages resp * R.limit req.
Proof.
  intros H HT HL.
  destruct (search_properties_inr _ self req resp H) as (_ & _ & _ & _ & ->).
  rewrite page_count_is_ceil_div by lia.
  pose proof (ceil_div_spec (Resp.total resp) (R.limit req) ltac:(lia)).
  nia.
Qed.

End SearchProperties.

Lemma X1_search_keeps_every_hit_witness :
  let resp := {| Resp.properties := [listing "p1"; listing "p2"];
                 Resp.total := 25; Resp.page := 1; Resp.limit := 10;
                 Resp.total_pages := 3 |} in
  exists response hits,
    OpenSearch.search (client two_hits_engine) (index_name two_hits_engine)
      (search_body R.default) None = inr response
    /\ (h <- getpath response ["hits"; "hits"] ;; iter h) = inr hits
    /\ Forall2 (fun hit p => property_of_hit document_init hit = inr p)
         hits (Resp.properties resp)
    /\ List.length (Resp.properties resp) = List.length hits.
Proof.
  apply (X1_search_keeps_every_hit document_init two_hits_engine R.default
           {| Resp.properties := [listing "p1"; listing "p2"];
              Resp.total := 25; Resp.page := 1; Resp.limit := 10;
              Resp.total_pages := 3 |}).
  reflexivity.
Defined.

Lemma X2_search_failures_propagate_witness :
  search_properties document_init down_engine R.default = inl ConnectionError
  /\ exists e', search_properties document_init bad_hit_engine R.default
                = inl e'.
Proof.
  split.
  - apply (proj1 (X2_search_failures_propagate document_init down_engine
                    R.default)).
    reflexivity.
  - apply (proj2 (X2_search_failures_propagate document_init bad_hit_engine
                    R.default)
             (search_response_of [hit_of (listing "p1"); hit_of (VStr "p2")] 2)
             [hit_of (listing "p1"); hit_of (VStr "p2")]
             (hit_of (VStr "p2")) TypeError).
    + reflexivity.
    + reflexivity.
    + right. left. reflexivity.
    + reflexivity.
Defined.

Lemma X4_last_page_is_not_empty_witness :
  let resp := {| Resp.properties := [listing "p1"; listing "p2"];
                 Resp.total := 25; Resp.page := 1; Resp.limit := 10;
                 Resp.total_pages := 3 |} in
  1 <= Resp.total_pages resp
  /\ (Resp.total_pages resp - 1) * R.limit R.default < Resp.total resp
  /\ Resp.total resp <= Resp.total_pages resp * R.limit R.default.
Proof.
  apply (X4_last_page_is_not_empty document_init two_hits_engine R.default
           {| Resp.properties := [listing "p1"; listing "p2"];
              Resp.total := 25; Resp.page := 1; Resp.limit := 10;
              Resp.total_pages := 3 |}).
  - reflexivity.
  - simpl. lia.
  - simpl. lia.
Defined.

(** ** Pagination *)

(** X3: the window requested from the backend.  The search body asks for
    [limit] results starting at [(page - 1) * limit]; for a valid request
    (page and limit at least 1) the offset is not negative, page 1 starts at
    0, and the next page of the same limit starts exactly where this one
    ends. *)
Theorem X3_pages_tile_the_results (r r' : R.t) :
  1 <= R.page r -> 1 <= R.limit r ->
  R.limit r' = R.limit r -> R.page r' = R.page r + 1 ->
  exists offset,
    getitem (search_body r) "from" = inr (VInt offset)
    /\ getitem (search_body r) "size" = inr (VInt (R.limit r))
    /\ 0 <= offset
    /\ (R.page r = 1 -> offset = 0)
    /\ getitem (search_body r') "from" = inr (VInt (offset + R.limit r)).
Proof.
  intros Hp Hl Hl' Hp'.
  exists ((R.page r - 1) * R.limit r).
  split; [reflexivity |]. split; [reflexivity |].
  split; [nia |]. split; [intros ->; reflexivity |].
  unfold search_body. cbn [getitem lookup String.eqb Ascii.eqb Bool.eqb].
  rewrite Hl', Hp'. unfold ret. do 2 f_equal. ring.
Qed.

Lemma X3_pages_tile_the_results_witness :
  exists offset,
    getitem (search_body R.default) "from" = inr (VInt offset)
    /\ getitem (search_body R.default) "size" = inr (VInt (R.limit R.default))
    /\ 0 <= offset
    /\ (R.page R.default = 1 -> offset = 0)
    /\ getitem (search_body second_page_request) "from"
       = inr (VInt (offset + R.limit R.default)).
Proof.
  apply (X3_pages_tile_the_results R.default second_page_request);
    simpl; lia.
Defined.

(** ** Writes *)

Lemma eq_str_true (v : value) (s : string) :
  eq_str v s = true <-> v = VStr s.
Proof.
  destruct v; simpl; split; try discriminate.
  - intros H. apply String.eqb_eq in H. subst. reflexivity.
  - intros [= ->]. apply String.eqb_refl.
Qed.

(** X5: [update_property] never raises, and answers [True] exactly when the
    backend call returned a response whose [result] is the string "updated"
    or "noop"; a backend failure, a response without [result] and any other
    result status all give [False]. *)
Theorem X5_update_true_iff_updated_or_noop (client : OpenSearchWrites.t)
    (index_name property_id : string) (property_data : value) :
  update_property client index_name property_id property_data = true
  <-> exists response,
        OpenSearchWrites.update client index_name property_id
          (VDict [("doc", property_data)]) = inr response
        /\ (getitem response "result" = inr (VStr "updated")
            \/ getitem response "result" = inr (VStr "noop")).
Proof.
  unfold update_property, try_except. split.
  - destruct (OpenSearchWrites.update _ _ _ _) as [e | response];
      cbn [bind]; [discriminate |].
    destruct (getitem response "result") as [e | r] eqn:Hr; cbn [bind ret];
      [discriminate |].
    unfold in_strs. cbn [existsb]. rewrite orb_false_r. intros H.
    exists response. split; [reflexivity |]. rewrite Hr.
    apply orb_true_iff in H. destruct H as [H | H];
      apply eq_str_true in H; subst; auto.
  - intros (response & -> & [H | H]); cbn [bind]; rewrite H; reflexivity.
Qed.

(** X6: [delete_property] never raises, and answers [True] exactly when the
    backend call returned a response whose [result] is the string "deleted";
    in particular a "not_found" result and every backend failure give
    [False]. *)
Theorem X6_delete_true_iff_deleted (client : OpenSearchWrites.t)
    (index_name property_id : string) :
  delete_property client index_name property_id = true
  <-> exists response,
        OpenSearchWrites.delete client index_name property_id = inr response
        /\ getitem response "result" = inr (VStr "deleted").
Proof.
  unfold delete_property, try_except. split.
  - destruct (OpenSearchWrites.delete _ _ _) as [e | response];
      cbn [bind]; [discriminate |].
    destruct (getitem response "result") as [e | r] eqn:Hr; cbn [bind ret];
      [discriminate |].
    intros H. apply eq_str_true in H. subst.
    exists response. auto.
  - intros (response & -> & H); cbn [bind]; rewrite H; reflexivity.
Qed.

Lemma bulk_action_inr (index_name : string) (prop a : value) :
  bulk_action index_name prop = inr a ->
  getitem a "_source" = inr prop
  /\ getitem a "_index" = inr (VStr index_name)
  /\ getitem a "_id" = get_method prop "id".
Proof.
  unfold bulk_action. intros H. bind_inv H. injection H as <-.
  rewrite Ha. repeat split.
Qed.

(** X7: the actions handed to the bulk helper.  When
    [bulk_index_properties] returns, it has passed one action per property,
    in the order given; each action carries the property unchanged as
    [_source], the engine's index as [_index], and as [_id] the property's
    [id] (or [None] when the property has no [id] key). *)
Theorem X7_bulk_one_action_per_property (client : OpenSearchWrites.t)
    (index_name : string) (properties actions : list value) :
  bulk_index_properties client index_name properties = inr actions ->
  List.length actions = List.length properties
  /\ Forall2 (fun prop a =>
                getitem a "_source" = inr prop
                /\ getitem a "_index" = inr (VStr index_name)
                /\ getitem a "_id" = get_method prop "id")
       properties actions
  /\ exists ack, OpenSearchWrites.bulk client actions = inr ack.
Proof.
  unfold bulk_index_properties, bulk_actions. intros H.
  rewrite for_each_append in H.
  bind_inv H. bind_inv Ha. injection Ha as <-. cbn [app] in *.
  bind_inv H. injection H as <-.
  apply mapM_Forall2 in Ha0.
  split; [symmetry; exact (Forall2_length Ha0) |].
  split.
  - clear Ha. induction Ha0; constructor; auto using bulk_action_inr.
  - exists a. exact Ha.
Qed.

Lemma X7_bulk_one_action_per_property_witness :
  let actions :=
    [VDict [("_index", VStr "properties"); ("_id", VStr "p1");
            ("_source", listing "p1")];
     VDict [("_index", VStr "properties"); ("_id", VStr "p2");
            ("_source", listing "p2")];
     VDict [("_index", VStr "properties"); ("_id", VNone);
            ("_source", VDict [("title", VStr "Loft")])]] in
  List.length actions = List.length three_listings
  /\ Forall2 (fun prop a =>
                getitem a "_source" = inr prop
                /\ getitem a "_index" = inr (VStr "properties")
                /\ getitem a "_id" = get_method prop "id")
       three_listings actions
  /\ exists ack,
       OpenSearchWrites.bulk (writes_answering (result_status "updated"))
         actions = inr ack.
Proof.
  apply (X7_bulk_one_action_per_property
           (writes_answering (result_status "updated")) "properties"
           three_listings).
  reflexivity.
Defined.

(** X8: the update and delete routes report every backend failure as a
    missing property: when the backend call raises, whatever the exception,
    the route answers 404 "Property not found". *)
Theorem X8_write_routes_answer_404_on_failure (client : OpenSearchWrites.t)
    (index_name property_id : string) (property_data : value) :
  (forall e,
     OpenSearchWrites.update client index_name property_id
       (VDict [("doc", property_data)]) = inl e ->
     update_property_route client index_name property_id property_data
     = HTTPException 404 "Property not found")
  /\
  (forall e,
     OpenSearchWrites.delete client index_name property_id = inl e ->
     delete_property_route client index_name property_id
     = HTTPException 404 "Property not found").
Proof.
  split; intros e H.
  - unfold update_property_route, update_property. rewrite H. reflexivity.
  - unfold delete_property_route, delete_property. rewrite H. reflexivity.
Qed.

Lemma X8_write_routes_answer_404_on_failure_witness :
  update_property_route down_writes "properties" "p1" (listing "p1")
  = HTTPException 404 "Property not found"
  /\ delete_property_route down_writes "properties" "p1"
     = HTTPException 404 "Property not found".
Proof.
  split.
  - apply (proj1 (X8_write_routes_answer_404_on_failure down_writes
                    "properties" "p1" (listing "p1")) ConnectionError).
    reflexivity.
  - apply (proj2 (X8_write_routes_answer_404_on_failure down_writes
                    "properties" "p1" (listing "p1")) ConnectionError).
    reflexivity.
Defined.

(** ** Analytics queries *)

(** X9: the analytics queries do not restrict the status.  Neither the
    statistics query nor the trends query has a filter clause, and no must
    clause of either is the status = "active" clause that every search query
    carries: analytics count listings of every status. *)
Theorem X9_analytics_queries_have_no_status_clause
    (location : string) (opt_location property_type : option string) :
  (forall q, getitem (stats_query opt_location property_type) "query" = inr q ->
     filter_of q = [] /\ ~ In status_active (must_of q))
  /\
  (forall q, getitem (trends_query location property_type) "query" = inr q ->
     filter_of q = [] /\ ~ In status_active (must_of q)).
Proof.
  split; intros q Hq.
  - unfold stats_query, stats_filters in Hq.
    destruct opt_location as [[| c l] |], property_type as [[| c' t] |];
      cbn in Hq; injection Hq as <-; (split; [reflexivity |]);
      cbn; intros H; repeat (destruct H as [H | H]; try discriminate H);
      exact H.
  - unfold trends_query in Hq.
    destruct property_type as [[| c' t] |];
      cbn in Hq; injection Hq as <-; (split; [reflexivity |]);
      cbn; intros H; repeat (destruct H as [H | H]; try discriminate H);
      exact H.
Qed.

Lemma X9_analytics_queries_have_no_status_clause_witness :
  (filter_of match_all = [] /\ ~ In status_active (must_of match_all))
  /\ (filter_of (VDict [("bool", VDict [("must",
         VList [multi_match (VStr "Austin")
                  ["location.city"; "location.state";
                   "location.neighborhood"]])])]) = []
      /\ ~ In status_active
           (must_of (VDict [("bool", VDict [("must",
              VList [multi_match (VStr "Austin")
                       ["location.city"; "location.state";
                        "location.neighborhood"]])])]))).
Proof.
  split.
  - apply (proj1 (X9_analytics_queries_have_no_status_clause "Austin"
                    None None)).
    reflexivity.
  - apply (proj2 (X9_analytics_queries_have_no_status_clause "Austin"
                    None None)).
    reflexivity.
Defined.

(** X10: the statistics query matches everything exactly when neither a
    location nor a property type is given (absent or empty); otherwise it is
    a boolean query whose must clauses are the given filters.  In both cases
    the nine aggregations are attached. *)
Theorem X10_stats_query_selection (location property_type : option string) :
  getitem (stats_query location property_type) "aggs" = inr stats_aggs
  /\ (getitem (stats_query location property_type) "query" = inr match_all
      <-> opt_truthy str_truthy location = false
          /\ opt_truthy str_truthy property_type = false)
  /\ (getitem (stats_query location property_type) "query"
      = inr (VDict [("bool", VDict [("must",
               VList (stats_filters location property_type))])])
      <-> opt_truthy str_truthy location = true
          \/ opt_truthy str_truthy property_type = true).
Proof.
  unfold stats_query, stats_filters.
  destruct (opt_truthy str_truthy location),
    (opt_truthy str_truthy property_type); cbn;
    (split; [reflexivity |]); split; split;
    try discriminate; try tauto; try reflexivity;
    try (intros [H | H]; discriminate H);
    try (intros [H1 H2]; discriminate).
Qed.

(** X11: when the backend call raises, [get_property_stats] returns the
    full structure: the two filters as given, a [total_properties] of 0,
    empty price and square-feet statistics and five empty distributions.
    No error reaches the caller. *)
Theorem X11_backend_failure_gives_empty_stats (self : PropertySearchEngine)
    (location property_type : option string) (e : exn) :
  OpenSearch.search (client self) (index_name self)
    (stats_query location property_type) (Some 0) = inl e ->
  let out := get_property_stats self location property_type in
  getpath out ["filters"; "location"] = inr (opt_value VStr location)
  /\ getpath out ["filters"; "property_type"]
     = inr (opt_value VStr property_type)
  /\ getpath out ["statistics"; "total_properties"] = inr (VInt 0)
  /\ Forall (fun k => getpath out ["statistics"; k] = inr (VDict []))
       ["price_statistics"; "square_feet_statistics"]
  /\ Forall (fun k => getpath out ["statistics"; k] = inr (VList []))
       ["property_types"; "top_cities"; "bedrooms_distribution";
        "bathrooms_distribution"; "status_distribution"].
Proof.
  intros H out. subst out. unfold get_property_stats. rewrite H.
  cbn [bind try_except].
  repeat split; repeat constructor.
Qed.

Lemma X11_backend_failure_gives_empty_stats_witness :
  let out := get_property_stats down_engine (Some "Austin") None in
  getpath out ["filters"; "location"] = inr (VStr "Austin")
  /\ getpath out ["filters"; "property_type"] = inr VNone
  /\ getpath out ["statistics"; "total_properties"] = inr (VInt 0)
  /\ Forall (fun k => getpath out ["statistics"; k] = inr (VDict []))
       ["price_statistics"; "square_feet_statistics"]
  /\ Forall (fun k => getpath out ["statistics"; k] = inr (VList []))
       ["property_types"; "top_cities"; "bedrooms_distribution";
        "bathrooms_distribution"; "status_distribution"].
Proof.
  apply (X11_backend_failure_gives_empty_stats down_engine (Some "Austin")
           None ConnectionError).
  reflexivity.
Defined.

(** ** The shape of the analytics results *)

Lemma trends_summary_keys (aggs : value) (summary : list (string * value)) :
  trends_summary aggs = inr summary ->
  map fst summary = map fst empty_summary.
Proof.
  unfold trends_summary. intros H.
  do 15 bind_inv H. injection H as <-. reflexivity.
Qed.

Lemma stats_of_aggs_keys (aggs : value) (statistics : list (string * value)) :
  stats_of_aggs aggs = inr statistics ->
  map fst statistics = map fst empty_statistics.
Proof.
  unfold stats_of_aggs. intros H.
  do 13 bind_inv H. injection H as <-. reflexivity.
Qed.

(** X12: the trends result has one shape.  Whatever the backend does
    (raises, answers with a malformed body, answers well-formed), the result
    of [get_location_trends] carries the three labels as given and a summary
    with the same ten keys in the same order. *)
Theorem X12_trends_result_shape (self : PropertySearchEngine)
    (location : string) (property_type : option string)
    (time_period : string) :
  exists summary,
    get_location_trends self location property_type time_period
    = VDict [("location", VStr location);
             ("property_type", opt_value VStr property_type);
             ("time_period", VStr time_period);
             ("summary", VDict summary)]
    /\ map fst summary
       = ["total_properties"; "average_price"; "median_price"; "min_price";
          "max_price"; "avg_price_per_sqft"; "property_types";
          "price_ranges"; "bedrooms_distribution"; "monthly_listings"].
Proof.
  unfold get_location_trends, try_except.
  destruct (_ <- OpenSearch.search _ _ _ _ ;; _) as [e | out] eqn:H.
  - exists empty_summary. split; reflexivity.
  - bind_inv H. bind_inv H. bind_inv H. injection H as <-.
    exists a1. split; [reflexivity |].
    exact (trends_summary_keys _ _ Ha1).
Qed.

(** X13: the statistics result has one shape.  Whatever the backend does,
    the result of [get_property_stats] carries the two filters as given and
    statistics with the same eight keys in the same order. *)
Theorem X13_stats_result_shape (self : PropertySearchEngine)
    (location property_type : option string) :
  exists statistics,
    get_property_stats self location property_type
    = VDict [("filters", VDict [("location", opt_value VStr location);
                                ("property_type",
                                 opt_value VStr property_type)]);
             ("statistics", VDict statistics)]
    /\ map fst statistics
       = ["total_properties"; "price_statistics"; "square_feet_statistics";
          "property_types"; "top_cities"; "bedrooms_distribution";
          "bathrooms_distribution"; "status_distribution"].
Proof.
  unfold get_property_stats, try_except.
  destruct (_ <- OpenSearch.search _ _ _ _ ;; _) as [e | out] eqn:H.
  - exists empty_statistics. split; reflexivity.
  - bind_inv H. bind_inv H. bind_inv H. injection H as <-.
    exists a1. split; [reflexivity |].
    exact (stats_of_aggs_keys _ _ Ha1).
Qed.

Lemma or_else_zero (v : value) :
  truthy (or_else v (VInt 0)) = true \/ or_else v (VInt 0) = VInt 0.
Proof.
  unfold or_else. destruct (truthy v) eqn:E; [left; exact E | right; reflexivity].
Qed.

(** X14: absent metrics are reported as 0.  In every result of
    [get_location_trends], each of [average_price], [min_price], [max_price]
    and [avg_price_per_sqft] is either a truthy value or the integer 0: a
    [None], a [0.0] or any other falsy value from the backend never reaches
    the caller in these four fields. *)
Theorem X14_trends_metrics_are_never_null (self : PropertySearchEngine)
    (location : string) (property_type : option string)
    (time_period : string) :
  let out := get_location_trends self location property_type time_period in
  Forall (fun metric =>
            exists v, getpath out ["summary"; metric] = inr v
                      /\ (truthy v = true \/ v = VInt 0))
    ["average_price"; "min_price"; "max_price"; "avg_price_per_sqft"].
Proof.
  intros out. subst out. unfold get_location_trends, try_except.
  destruct (_ <- OpenSearch.search _ _ _ _ ;; _) as [e | out] eqn:H.
  - repeat constructor; eexists; (split; [reflexivity | right; reflexivity]).
  - bind_inv H. bind_inv H. bind_inv H. injection H as <-.
    unfold trends_summary in Ha1. do 15 bind_inv Ha1.
    injection Ha1 as <-.
    repeat constructor; eexists; (split; [reflexivity | apply or_else_zero]).
Qed.

(** ** Location suggestions: completeness and the malformed city bucket *)

Section SuggestionCompleteness.

Context {RT : PyRuntime}.

Lemma for_each_add_city (query : string) (buckets : list value) :
  Forall has_str_key buckets ->
  forall acc,
    for_each (add_city query) buckets acc
    = inr (acc ++ matching_keys (fun s => contains (lower query) (lower s))
                    buckets).
Proof.
  induction 1 as [| bucket rest [s Hs] _ IH]; intros acc; simpl.
  - rewrite app_nil_r. reflexivity.
  - unfold add_city at 1. rewrite Hs. cbn [bind lower_of ret append_key].
    destruct (contains (lower query) (lower s)); cbn [bind ret app];
      rewrite IH; [rewrite <- app_assoc |]; reflexivity.
Qed.

Lemma for_each_add_neighborhood (query : string) (buckets : list value) :
  Forall has_str_key buckets ->
  forall acc,
    for_each (add_neighborhood query) buckets acc
    = inr (acc ++ matching_keys
                    (fun s => str_truthy s
                              && contains (lower query) (lower s)) buckets).
Proof.
  induction 1 as [| bucket rest [s Hs] _ IH]; intros acc; simpl.
  - rewrite app_nil_r. reflexivity.
  - unfold add_neighborhood at 1. rewrite Hs.
    cbn [bind truthy lower_of ret append_key].
    destruct (str_truthy s); cbn [andb bind ret app].
    + destruct (contains (lower query) (lower s)); cbn [bind ret app];
        rewrite IH; [rewrite <- app_assoc |]; reflexivity.
    + rewrite IH. reflexivity.
Qed.

Lemma matching_keys_length (p : string -> bool) (buckets : list value) :
  (List.length (matching_keys p buckets) <= List.length buckets)%nat.
Proof.
  induction buckets as [| b rest IH]; simpl; [lia |].
  rewrite length_app.
  destruct (getitem b "key") as [e | [| | | | s | |]]; simpl; try lia.
  destruct (p s); simpl; lia.
Qed.

Lemma matching_keys_In (p : string -> bool) (buckets : list value)
    (s : string) :
  In s (matching_keys p buckets)
  <-> p s = true
      /\ exists bucket, In bucket buckets
                        /\ getitem bucket "key" = inr (VStr s).
Proof.
  unfold matching_keys. rewrite in_flat_map. split.
  - intros (b & Hb & Hin).
    destruct (getitem b "key") as [e | [| | | | s' | |]] eqn:Hk;
      try contradiction.
    destruct (p s') eqn:Hp; [| contradiction].
    destruct Hin as [-> | []]. split; [exact Hp |]. exists b. auto.
  - intros (Hp & b & Hb & Hk). exists b. split; [exact Hb |].
    rewrite Hk, Hp. left. reflexivity.
Qed.

Lemma slice_to_all {A : Type} (l : list A) (n : Z) :
  Z.of_nat (List.length l) <= n -> slice_to l n = l.
Proof.
  intros H. unfold slice_to.
  destruct (0 <=? n) eqn:E; [| lia].
  apply firstn_all2. lia.
Qed.

(** X15: suggestions are complete.  When the backend answers with city and
    neighborhood bucket lists whose keys are all strings, and the limit is at
    least the number of buckets, the result holds exactly the city keys that
    contain the query (lower-cased on both sides) and the non-empty
    neighborhood keys that do: no match is lost. *)
Theorem X15_suggestions_are_complete (self : PropertySearchEngine)
    (query : string) (limit : Z) (response : value)
    (cities hoods : list value) :
  OpenSearch.search (client self) (index_name self)
    (suggestions_query query limit) None = inr response ->
  getpath response ["aggregations"; "unique_cities"; "buckets"]
  = inr (VList cities) ->
  getpath response ["aggregations"; "unique_neighborhoods"; "buckets"]
  = inr (VList hoods) ->
  Forall has_str_key cities ->
  Forall has_str_key hoods ->
  Z.of_nat (List.length cities + List.length hoods) <= limit ->
  forall s,
    In s (get_location_suggestions self query limit)
    <-> (contains (lower query) (lower s) = true
         /\ ((exists bucket, In bucket cities
                             /\ getitem bucket "key" = inr (VStr s))
             \/ (s <> ""
                 /\ exists bucket, In bucket hoods
                                   /\ getitem bucket "key" = inr (VStr s)))).
Proof.
  intros Hs Hc Hh Hcs Hhs Hlimit s.
  unfold get_location_suggestions. rewrite Hs. cbn [bind].
  unfold suggestions_of_response. rewrite Hc. cbn [bind iter ret].
  rewrite (for_each_add_city query cities Hcs). cbn [bind app].
  rewrite Hh. cbn [bind iter ret].
  rewrite (for_each_add_neighborhood query hoods Hhs). cbn [bind try_except ret].
  set (l := matching_keys _ cities ++ matching_keys _ hoods).
  assert (Hlen : (List.length (set_to_list l) <= List.length l)%nat).
  { apply NoDup_incl_length; [apply set_to_list_NoDup |].
    intros x Hx. apply set_to_list_In. exact Hx. }
  assert (Hl : (List.length l
                <= List.length cities + List.length hoods)%nat).
  { subst l. rewrite length_app.
    pose proof (matching_keys_length
                  (fun s => contains (lower query) (lower s)) cities).
    pose proof (matching_keys_length
                  (fun s => str_truthy s
                            && contains (lower query) (lower s)) hoods).
    lia. }
  rewrite slice_to_all by lia.
  rewrite set_to_list_In. subst l. rewrite in_app_iff.
  rewrite !matching_keys_In. split.
  - intros [[Hp Hb] | [Hp Hb]].
    + split; [exact Hp | left; exact Hb].
    + apply andb_true_iff in Hp. destruct Hp as [Ht Hp].
      split; [exact Hp |]. right. split; [| exact Hb].
      intros ->. discriminate Ht.
  - intros [Hp [Hb | [Hne Hb]]].
    + left. auto.
    + right. split; [| exact Hb].
      apply andb_true_iff. split; [| exact Hp].
      destruct s; [contradiction | reflexivity].
Qed.

Lemma for_each_fails {A S : Type} (body : S -> A -> result S)
    (xs : list A) (x : A) :
  In x xs ->
  (forall acc, exists e, body acc x = inl e) ->
  forall acc, exists e, for_each body xs acc = inl e.
Proof.
  induction xs as [| y xs IH]; simpl; [tauto |].
  intros [-> | Hin] Hbad acc.
  - destruct (Hbad acc) as [e ->]. exists e. reflexivity.
  - destruct (body acc y) as [e | acc']; [exists e; reflexivity |].
    cbn [bind]. apply IH; assumption.
Qed.

(** X16: one malformed city bucket empties the suggestions.  When some city
    bucket of the response has no string key (the key is missing, [None] or
    a number), the result is the empty list, whatever the other buckets
    hold. *)
Theorem X16_malformed_city_bucket_empties_suggestions
    (self : PropertySearchEngine) (query : string) (limit : Z)
    (response : value) (cities : list value) (bucket : value) :
  OpenSearch.search (client self) (index_name self)
    (suggestions_query query limit) None = inr response ->
  (b <- getpath response ["aggregations"; "unique_cities"; "buckets"] ;;
   iter b) = inr cities ->
  In bucket cities ->
  (forall s, getitem bucket "key" <> inr (VStr s)) ->
  get_location_suggestions self query limit = [].
Proof.
  intros Hs Hc Hin Hbad.
  unfold get_location_suggestions. rewrite Hs. cbn [bind].
  unfold suggestions_of_response.
  destruct (getpath response ["aggregations"; "unique_cities"; "buckets"])
    as [e | b]; [reflexivity |].
  cbn [bind] in Hc |- *. rewrite Hc. cbn [bind].
  destruct (for_each_fails (add_city query) cities bucket Hin) with (acc := @nil string)
    as [e ->]; [| reflexivity].
  intros acc. unfold add_city.
  destruct (getitem bucket "key") as [e | k] eqn:Hk;
    [exists e; reflexivity |].
  destruct k; cbn [bind lower_of raise]; try (eexists; reflexivity).
  exfalso. apply (Hbad s). reflexivity.
Qed.

End SuggestionCompleteness.

Lemma X15_suggestions_are_complete_witness :
  In "North Austin" (get_location_suggestions austin_engine "austin" 10)
  <-> (contains (lower "austin") (lower "North Austin") = true
       /\ ((exists bucket,
              In bucket [VDict [("key", VStr "Austin"); ("doc_count", VInt 1)];
                         VDict [("key", VStr "North Austin");
                                ("doc_count", VInt 1)]]
              /\ getitem bucket "key" = inr (VStr "North Austin"))
           \/ ("North Austin" <> ""
               /\ exists bucket,
                    In bucket [VDict [("key", VStr "Downtown");
                                      ("doc_count", VInt 1)]]
                    /\ getitem bucket "key" = inr (VStr "North Austin")))).
Proof.
  apply (X15_suggestions_are_complete austin_engine "austin" 10
           austin_response).
  - reflexivity.
  - reflexivity.
  - reflexivity.
  - repeat constructor; eexists; reflexivity.
  - repeat constructor; eexists; reflexivity.
  - simpl. lia.
Defined.

Lemma X16_malformed_city_bucket_empties_suggestions_witness :
  get_location_suggestions null_city_engine "austin" 10 = [].
Proof.
  apply (X16_malformed_city_bucket_empties_suggestions null_city_engine
           "austin" 10
           (VDict [("aggregations",
              VDict [("unique_cities",
                      VDict [("buckets",
                        VList [VDict [("key", VStr "Austin");
                                      ("doc_count", VInt 3)];
                               VDict [("key", VNone);
                                      ("doc_count", VInt 1)]])]);
                     ("unique_neighborhoods",
                      VDict [("buckets", buckets_of ["Downtown"])])])])
           [VDict [("key", VStr "Austin"); ("doc_count", VInt 3)];
            VDict [("key", VNone); ("doc_count", VInt 1)]]
           (VDict [("key", VNone); ("doc_count", VInt 1)])).
  - reflexivity.
  - reflexivity.
  - right. left. reflexivity.
  - intros s. discriminate.
Defined.

(** ** The query builder: clause groups and filter semantics *)

Lemma Forall_append_if {A : Type} (P : A -> Prop) (c : bool) (x : A)
    (l : list A) :
  Forall P l -> P x -> Forall P (append_if c x l).
Proof.
  intros Hl Hx. unfold append_if. destruct c; [| exact Hl].
  apply Forall_app. split; [exact Hl | constructor; [exact Hx | constructor]].
Qed.

Lemma length_append_if {A : Type} (c : bool) (x : A) (l : list A) :
  (List.length l <= List.length (append_if c x l) <= S (List.length l))%nat.
Proof.
  unfold append_if. destruct c; [rewrite length_app; simpl |]; lia.
Qed.

Lemma length_append_if_le {A : Type} (c : bool) (x : A) (l : list A)
    (n : nat) :
  (List.length l <= n)%nat -> (List.length (append_if c x l) <= S n)%nat.
Proof. pose proof (length_append_if c x l). lia. Qed.

Lemma in_append_if_inv {A : Type} (c : bool) (x y : A) (l : list A) :
  In y (append_if c x l) -> y = x \/ In y l.
Proof.
  unfold append_if. destruct c; [| auto].
  intros H. apply in_app_or in H. destruct H as [H | [H | []]]; auto.
Qed.

Lemma must_of_build_with_filters (r : R.t) (f : F.t) :
  R.filters r = Some f ->
  must_of (_build_search_query r)
  = fst (filters_clauses f (text_clauses r) []).
Proof.
  intros Hf. unfold _build_search_query. rewrite Hf. fold (text_clauses r).
  destruct (filters_clauses f (text_clauses r) []) as [m fs]. simpl fst.
  rewrite nonempty_snoc, orb_true_r. reflexivity.
Qed.

Lemma build_without_filters (r : R.t) :
  R.filters r = None ->
  _build_search_query r = bool_query (text_clauses r) [status_active].
Proof.
  intros Hf. unfold _build_search_query. rewrite Hf. fold (text_clauses r).
  cbn [app nonempty]. rewrite orb_true_r. reflexivity.
Qed.

Lemma text_clauses_multi_match (r : R.t) :
  Forall is_multi_match (text_clauses r)
  /\ (List.length (text_clauses r) <= 1)%nat.
Proof.
  unfold text_clauses. split.
  - apply Forall_append_if; [constructor |]. eexists. eexists. reflexivity.
  - pose proof (length_append_if (opt_truthy str_truthy (R.query r))
                  (multi_match (opt_value VStr (R.query r))
                     ["title^2"; "description"; "location.address";
                      "location.city"; "location.neighborhood"]) []).
    simpl in *. lia.
Qed.

Ltac term_shape := left; eexists; eexists; reflexivity.
Ltac range_shape := right; eexists; eexists; reflexivity.

(** X17: scored and unscored clauses never mix.  In every compiled search
    query the must group holds only multi_match clauses, at most two of them
    (free text, location), and the filter group holds only term and range
    clauses, at least one (the status clause) and at most six. *)
Theorem X17_must_and_filter_groups_are_separate (r : R.t) :
  let q := _build_search_query r in
  Forall is_multi_match (must_of q)
  /\ Forall is_term_or_range (filter_of q)
  /\ (List.length (must_of q) <= 2)%nat
  /\ (1 <= List.length (filter_of q) <= 6)%nat.
Proof.
  intros q. subst q.
  destruct (text_clauses_multi_match r) as [Htext Hlen].
  destruct (R.filters r) as [f |] eqn:Hf.
  - rewrite (must_of_build_with_filters r f Hf),
      (filter_of_build_with_filters r f Hf).
    unfold filters_clauses. cbn [fst snd].
    split; [| split; [| split]].
    + apply Forall_append_if; [exact Htext |].
      eexists. eexists. reflexivity.
    + apply Forall_app. split; [| constructor; [term_shape | constructor]].
      repeat (apply Forall_append_if; [| first [term_shape | range_shape]]).
      constructor.
    + match goal with
      | |- (List.length (append_if ?c ?x ?l) <= _)%nat =>
          pose proof (length_append_if c x l)
      end. lia.
    + rewrite length_app. cbn [List.length].
      match goal with
      | |- (_ <= List.length ?l + 1 <= _)%nat =>
          assert (List.length l <= 5)%nat
            by (repeat apply length_append_if_le; simpl; lia)
      end.
      lia.
  - rewrite (build_without_filters r Hf).
    rewrite must_of_bool_query, filter_of_bool_query.
    split; [exact Htext |].
    split; [constructor; [term_shape | constructor] |].
    destruct (text_clauses r) as [| c [| c' l]]; simpl in *; lia.
Qed.

(** X18: the amenities filter is never compiled.  Replacing the [amenities]
    of a request's filters by any other value, or by none, leaves the
    compiled query unchanged. *)
Theorem X18_amenities_filter_is_ignored (r : R.t) (f : F.t)
    (a : option (list string)) :
  R.filters r = Some f ->
  _build_search_query (R.with_filters (Some (filters_with_amenities a f)) r)
  = _build_search_query r.
Proof.
  intros Hf. unfold _build_search_query. rewrite Hf. reflexivity.
Qed.

Lemma X18_amenities_filter_is_ignored_witness :
  _build_search_query
    (R.with_filters (Some (filters_with_amenities None full_filters))
       full_request)
  = _build_search_query full_request.
Proof.
  apply (X18_amenities_filter_is_ignored full_request full_filters None).
  reflexivity.
Defined.

Lemma float_nonzero_truthy (x : float) :
  float_is_zero x = false -> float_truthy x = true.
Proof. unfold float_is_zero, float_truthy. intros ->. reflexivity. Qed.

Lemma int_nonzero_truthy (n : Z) : n <> 0 -> int_truthy n = true.
Proof.
  intros H. unfold int_truthy. apply Z.eqb_neq in H. rewrite H. reflexivity.
Qed.

Lemma str_nonempty_truthy (s : string) : s <> "" -> str_truthy s = true.
Proof. destruct s; [contradiction | reflexivity]. Qed.

(** X19: the price range clause follows the bounds that are set.  With only
    a non-zero [max_price] the compiled range has the single bound lte; with
    both bounds non-zero it has gte then lte.  The bounds are not compared:
    a minimum above the maximum compiles like any other pair. *)
Theorem X19_price_range_bounds (r : R.t) (f : F.t) :
  R.filters r = Some f ->
  (forall hi,
     F.min_price f = None -> F.max_price f = Some hi ->
     float_is_zero hi = false ->
     In (range "price" [("lte", VFloat hi)])
        (filter_of (_build_search_query r)))
  /\
  (forall lo hi,
     F.min_price f = Some lo -> F.max_price f = Some hi ->
     float_is_zero lo = false -> float_is_zero hi = false ->
     In (range "price" [("gte", VFloat lo); ("lte", VFloat hi)])
        (filter_of (_build_search_query r))).
Proof.
  intros Hf. rewrite (filter_of_build_with_filters r f Hf).
  split.
  - intros hi Hmin Hmax Hhi. apply in_or_app. left.
    unfold filters_clauses. rewrite Hmin, Hmax. cbn [snd].
    unfold range_bounds. cbn [opt_truthy opt_value orb].
    rewrite (float_nonzero_truthy hi Hhi).
    do 4 apply in_append_if. apply in_append_if_true.
  - intros lo hi Hmin Hmax Hlo Hhi. apply in_or_app. left.
    unfold filters_clauses. rewrite Hmin, Hmax. cbn [snd].
    unfold range_bounds. cbn [opt_truthy opt_value].
    rewrite (float_nonzero_truthy lo Hlo), (float_nonzero_truthy hi Hhi).
    cbn [orb]. do 4 apply in_append_if. apply in_append_if_true.
Qed.

Lemma X19_price_range_bounds_witness :
  In (range "price" [("lte", VFloat 400000%float)])
     (filter_of (_build_search_query max_price_request))
  /\ In (range "price" [("gte", VFloat 200000%float);
                        ("lte", VFloat 400000%float)])
        (filter_of (_build_search_query full_request)).
Proof.
  split.
  - apply (proj1 (X19_price_range_bounds max_price_request
                    (F.with_max_price (Some 400000%float) F.default)
                    eq_refl) 400000%float); reflexivity.
  - apply (proj2 (X19_price_range_bounds full_request full_filters eq_refl)
             200000%float 400000%float); reflexivity.
Defined.

(** X20: what each remaining filter means to the backend.  A non-zero
    [bedrooms] is an exact match on the bedroom count; a non-zero
    [bathrooms] is a minimum (range with the single bound gte); a non-empty
    [property_type] is an exact match; a non-empty [location] is a scored
    multi_match over city, state, address and neighborhood in the must
    group. *)
Theorem X20_filter_semantics (r : R.t) (f : F.t) :
  R.filters r = Some f ->
  let q := _build_search_query r in
  (forall n, F.bedrooms f = Some n -> n <> 0 ->
     In (term "details.bedrooms" (VInt n)) (filter_of q))
  /\ (forall n, F.bathrooms f = Some n -> n <> 0 ->
        In (range "details.bathrooms" [("gte", VInt n)]) (filter_of q))
  /\ (forall t, F.property_type f = Some t -> t <> "" ->
        In (term "details.property_type" (VStr t)) (filter_of q))
  /\ (forall l, F.location f = Some l -> l <> "" ->
        In (multi_match (VStr l)
              ["location.city"; "location.state"; "location.address";
               "location.neighborhood"]) (must_of q)).
Proof.
  intros Hf q. subst q.
  rewrite (filter_of_build_with_filters r f Hf),
    (must_of_build_with_filters r f Hf).
  unfold filters_clauses. cbn [fst snd].
  split; [| split; [| split]].
  - intros n Hn Hz. apply in_or_app. left. rewrite Hn.
    cbn [opt_truthy opt_value]. rewrite (int_nonzero_truthy n Hz).
    do 3 apply in_append_if. apply in_append_if_true.
  - intros n Hn Hz. apply in_or_app. left. rewrite Hn.
    cbn [opt_truthy opt_value]. rewrite (int_nonzero_truthy n Hz).
    do 2 apply in_append_if. apply in_append_if_true.
  - intros t Ht Hne. apply in_or_app. left. rewrite Ht.
    cbn [opt_truthy opt_value]. rewrite (str_nonempty_truthy t Hne).
    apply in_append_if. apply in_append_if_true.
  - intros l Hl Hne. rewrite Hl.
    cbn [opt_truthy opt_value]. rewrite (str_nonempty_truthy l Hne).
    apply in_append_if_true.
Qed.

Lemma X20_filter_semantics_witness :
  let q := _build_search_query full_request in
  In (term "details.bedrooms" (VInt 3)) (filter_of q)
  /\ In (range "details.bathrooms" [("gte", VInt 2)]) (filter_of q)
  /\ In (term "details.property_type" (VStr "house")) (filter_of q)
  /\ In (multi_match (VStr "Austin")
           ["location.city"; "location.state"; "location.address";
            "location.neighborhood"]) (must_of q).
Proof.
  destruct (X20_filter_semantics full_request full_filters eq_refl)
    as (Hbed & Hbath & Htype & Hloc).
  split; [| split; [| split]].
  - apply (Hbed 3); [reflexivity | discriminate].
  - apply (Hbath 2); [reflexivity | discriminate].
  - apply (Htype "house"); [reflexivity | discriminate].
  - apply (Hloc "Austin"); [reflexivity | discriminate].
Defined.

(** X21: exactly one status clause.  The filter group of every compiled
    search query is some list of clauses followed by the status = "active"
    clause, and none of the clauses before it is a term on [status]: no
    request can add a second status clause or one with another value. *)
Theorem X21_single_status_clause (r : R.t) :
  exists clauses,
    filter_of (_build_search_query r) = clauses ++ [status_active]
    /\ forall v, ~ In (term "status" v) clauses.
Proof.
  destruct (R.filters r) as [f |] eqn:Hf.
  - exists (snd (filters_clauses f [] [])).
    split; [exact (filter_of_build_with_filters r f Hf) |].
    intros v H. unfold filters_clauses in H. cbn [snd] in H.
    repeat (apply in_append_if_inv in H; destruct H as [H | H];
            [discriminate H |]).
    exact H.
  - exists []. rewrite (build_without_filters r Hf). split; [reflexivity |].
    intros v [].
Qed.

(** ** The sort planner: only fixed fields and directions *)

(** X22: the sort directive never carries caller text.  Whatever the sort
    key and direction, the compiled sort is a single directive on one of the
    five fixed fields with the order "asc" or "desc"; and the order is
    "desc" only when the requested direction is exactly "desc" or the field
    is the relevance score. *)
Theorem X22_sort_uses_fixed_fields (sort_by sort_order : option string) :
  exists field order,
    _build_sort_criteria sort_by sort_order = sort_directive field order
    /\ In field sort_fields
    /\ (order = "asc" \/ order = "desc")
    /\ (order = "desc" -> sort_order = Some "desc" \/ field = "_score").
Proof.
  unfold _build_sort_criteria.
  assert (Hfield : In (sort_map_get sort_by "price") sort_fields).
  { destruct sort_by as [k |]; [| left; reflexivity].
    unfold sort_map_get, sort_map. cbn [assoc].
    repeat match goal with
    | |- context [String.eqb k ?s] => destruct (String.eqb k s)
    end; unfold sort_fields; simpl; auto 10. }
  destruct (String.eqb (sort_map_get sort_by "price") "_score") eqn:Hscore.
  - exists "_score", "desc". split; [reflexivity |].
    split; [unfold sort_fields; simpl; auto 10 |]. auto.
  - exists (sort_map_get sort_by "price").
    destruct sort_order as [o |]; cbn [opt_str_eqb].
    + destruct (String.eqb o "desc") eqn:Ho.
      * exists "desc". apply String.eqb_eq in Ho. subst. auto.
      * exists "asc". repeat split; auto. discriminate.
    + exists "asc". repeat split; auto. discriminate.
Qed.

(** ** The handler of the GET search route *)

Section RouteProperties.

Context {Property : Type} (Property_init : value -> result Property).
Context (exn_str : exn -> string).

(** X23: the handler of the GET search route, [search_properties_get],
    answers 500 to a page below 1 or a limit outside 1..100, with the text
    of the validation error, and does so without consulting the backend:
    the answer is the same for every engine. *)
Theorem X23_get_search_rejects_bad_paging (self : PropertySearchEngine)
    (location property_type : option string)
    (min_price max_price : option float)
    (bedrooms bathrooms min_sqft max_sqft : option Z)
    (page limit : Z) (sort_by sort_order : string) :
  page < 1 \/ limit < 1 \/ 100 < limit ->
  search_properties_get Property_init exn_str self location property_type
    min_price max_price bedrooms bathrooms min_sqft max_sqft page limit
    sort_by sort_order
  = HTTPException 500 ("Search error: " ++ exn_str ValidationError).
Proof.
  intros H. unfold search_properties_get, PropertySearchRequest_init.
  assert (Hc : (page <? 1) || (limit <? 1) || (100 <? limit) = true).
  { destruct H as [H | [H | H]]; apply Z.ltb_lt in H; rewrite H;
      rewrite ?orb_true_r; reflexivity. }
  rewrite Hc. reflexivity.
Qed.

(** X24: the handler of the GET search route has two outcomes only.  It
    either returns the engine's response for the request it built (the query
    parameters nested under [filters], the flat fields left unset), or
    answers 500 with a detail that starts with "Search error: "; it never
    answers 404. *)
Theorem X24_get_search_outcomes (self : PropertySearchEngine)
    (location property_type : option string)
    (min_price max_price : option float)
    (bedrooms bathrooms min_sqft max_sqft : option Z)
    (page limit : Z) (sort_by sort_order : string) :
  let out :=
    search_properties_get Property_init exn_str self location property_type
      min_price max_price bedrooms bathrooms min_sqft max_sqft page limit
      sort_by sort_order in
  (exists req resp,
     out = Ok resp
     /\ search_properties Property_init self req = inr resp
     /\ R.page req = page /\ R.limit req = limit
     /\ 1 <= page /\ 1 <= limit <= 100
     /\ (exists f, R.filters req = Some f
                   /\ F.location f = location
                   /\ F.property_type f = property_type
                   /\ F.min_price f = min_price /\ F.max_price f = max_price
                   /\ F.bedrooms f = bedrooms /\ F.bathrooms f = bathrooms
                   /\ F.min_sqft f = min_sqft /\ F.max_sqft f = max_sqft)
     /\ R.location req = None /\ R.min_price req = None)
  \/ (exists e, out = HTTPException 500 ("Search error: " ++ exn_str e)).
Proof.
  intros out. subst out.
  unfold search_properties_get, PropertySearchRequest_init.
  destruct ((page <? 1) || (limit <? 1) || (100 <? limit)) eqn:Hc.
  - right. exists ValidationError. reflexivity.
  - apply orb_false_elim in Hc. destruct Hc as [Hc H100].
    apply orb_false_elim in Hc. destruct Hc as [Hp Hl].
    apply Z.ltb_ge in Hp, Hl, H100.
    cbn [bind ret].
    match goal with
    | |- context [search_properties Property_init self ?r] =>
        set (req := r)
    end.
    destruct (search_properties Property_init self req) as [e | resp] eqn:Hs.
    + right. exists e. reflexivity.
    + left. exists req, resp. cbn [bind try_except ret].
      split; [reflexivity |]. split; [exact Hs |].
      split; [reflexivity |]. split; [reflexivity |].
      split; [lia |]. split; [lia |].
      split; [| split; reflexivity].
      eexists. split; [reflexivity |]. repeat split.
Qed.

End RouteProperties.

Lemma X23_get_search_rejects_bad_paging_witness :
  search_properties_get document_init (fun _ => "invalid") two_hits_engine
    (Some "Austin") None None None None None None None 1 0 "price" "asc"
  = HTTPException 500 ("Search error: " ++ "invalid").
Proof.
  apply (X23_get_search_rejects_bad_paging document_init (fun _ => "invalid")
           two_hits_engine (Some "Austin") None None None None None None None
           1 0 "price" "asc").
  right. left. lia.
Defined.

(** ** The agent's chat history and favorites *)

Lemma dlookup_dstore_same {V : Type} (k : string) (v : V)
    (d : list (string * V)) :
  dlookup k (dstore k v d) = Some v.
Proof.
  induction d as [| [k' v'] d IH]; simpl.
  - rewrite String.eqb_refl. reflexivity.
  - destruct (String.eqb k k') eqn:E; simpl.
    + rewrite String.eqb_refl. reflexivity.
    + rewrite E. exact IH.
Qed.

Lemma dlookup_dstore_other {V : Type} (k k' : string) (v : V)
    (d : list (string * V)) :
  k <> k' -> dlookup k' (dstore k v d) = dlookup k' d.
Proof.
  intros Hne. induction d as [| [k0 v0] d IH]; simpl.
  - destruct (String.eqb k' k) eqn:E; [| reflexivity].
    apply String.eqb_eq in E. congruence.
  - destruct (String.eqb k k0) eqn:E; simpl.
    + apply String.eqb_eq in E. subst k0.
      destruct (String.eqb k' k) eqn:E'; [| reflexivity].
      apply String.eqb_eq in E'. congruence.
    + destruct (String.eqb k' k0); [reflexivity | exact IH].
Qed.

Lemma dget_list_dstore_same {A : Type} (k : string) (l : list A)
    (d : list (string * list A)) :
  dget_list k (dstore k l d) = l.
Proof. unfold dget_list. rewrite dlookup_dstore_same. reflexivity. Qed.

Lemma dget_list_dstore_other {A : Type} (k k' : string) (l : list A)
    (d : list (string * list A)) :
  k <> k' -> dget_list k' (dstore k l d) = dget_list k' d.
Proof.
  intros H. unfold dget_list. rewrite (dlookup_dstore_other k k' l d H).
  reflexivity.
Qed.

Lemma in_list_In (x : string) (l : list string) :
  in_list x l = true <-> In x l.
Proof.
  unfold in_list. rewrite existsb_exists. split.
  - intros (y & Hy & E). apply String.eqb_eq in E. subst. exact Hy.
  - intros H. exists x. split; [exact H | apply String.eqb_refl].
Qed.

Lemma slice_from_suffix {A : Type} (l : list A) (start : Z) :
  exists older, l = older ++ slice_from l start.
Proof.
  unfold slice_from. eexists. symmetry. apply firstn_skipn.
Qed.

(** X25: storing a chat message appends it to its session.  After
    [_store_chat_history], the session's history is the old history followed
    by the new message, every other session's history is unchanged, and
    [get_chat_history] with limit 1 returns exactly the new message. *)
Theorem X25_store_appends_to_the_session (h : History)
    (session_id role content : string) :
  let h' := _store_chat_history h session_id role content in
  dget_list session_id h' = dget_list session_id h ++ [(role, content)]
  /\ (forall other, other <> session_id ->
        dget_list other h' = dget_list other h)
  /\ get_chat_history h' session_id 1 = [(role, content)].
Proof.
  intros h'. subst h'. unfold _store_chat_history. cbv zeta.
  match goal with
  | |- context [dstore session_id (_ ++ _) ?m] => set (h0 := m)
  end.
  assert (Hsame : dget_list session_id h0 = dget_list session_id h).
  { subst h0. unfold dget_list at 2.
    destruct (dlookup session_id h) eqn:E.
    - unfold dget_list. rewrite E. reflexivity.
    - apply dget_list_dstore_same. }
  assert (Hother : forall other, other <> session_id ->
                     dget_list other h0 = dget_list other h).
  { intros other Hne. subst h0.
    destruct (dlookup session_id h); [reflexivity |].
    apply dget_list_dstore_other. congruence. }
  rewrite Hsame. split; [apply dget_list_dstore_same |]. split.
  - intros other Hne. rewrite dget_list_dstore_other by congruence.
    apply Hother. exact Hne.
  - unfold get_chat_history. rewrite dget_list_dstore_same.
    unfold slice_from. rewrite length_app. cbn [List.length].
    replace (Z.to_nat _) with (List.length (dget_list session_id h)).
    + rewrite skipn_app, skipn_all, Nat.sub_diag. reflexivity.
    + destruct (- (1) <? 0) eqn:E; [lia | discriminate].
Qed.

(** X26: the limit of [get_chat_history].  A limit of 0 returns the whole
    history of the session, not an empty list; a limit of at least 1 returns
    the most recent messages, at most [limit] of them, in their order. *)
Theorem X26_chat_history_limit (h : History) (session_id : string)
    (limit : Z) :
  get_chat_history h session_id 0 = dget_list session_id h
  /\ (1 <= limit ->
      exists older,
        dget_list session_id h
        = older ++ get_chat_history h session_id limit
        /\ Z.of_nat (List.length (get_chat_history h session_id limit))
           = Z.min limit (Z.of_nat (List.length (dget_list session_id h)))).
Proof.
  unfold get_chat_history. split.
  - unfold slice_from. simpl. rewrite Z.min_l by lia. reflexivity.
  - intros Hl.
    destruct (slice_from_suffix (dget_list session_id h) (- limit)) as [older H].
    exists older. split; [exact H |].
    unfold slice_from. rewrite length_skipn.
    destruct (- limit <? 0) eqn:E; lia.
Qed.

Lemma X25_store_appends_to_the_session_witness :
  let h' := _store_chat_history sample_history "s1" "agent" "3 found" in
  dget_list "s1" h' = dget_list "s1" sample_history ++ [("agent", "3 found")]
  /\ (forall other, other <> "s1" ->
        dget_list other h' = dget_list other sample_history)
  /\ get_chat_history h' "s1" 1 = [("agent", "3 found")].
Proof.
  exact (X25_store_appends_to_the_session sample_history "s1" "agent"
           "3 found").
Defined.

Lemma X26_chat_history_limit_witness :
  get_chat_history sample_history "s1" 0 = dget_list "s1" sample_history
  /\ exists older,
       dget_list "s1" sample_history
       = older ++ get_chat_history sample_history "s1" 2
       /\ Z.of_nat (List.length (get_chat_history sample_history "s1" 2))
          = Z.min 2 (Z.of_nat (List.length (dget_list "s1" sample_history))).
Proof.
  destruct (X26_chat_history_limit sample_history "s1" 2) as [H0 H2].
  split; [exact H0 | apply H2; lia].
Defined.

Lemma remove_first_In (x y : string) (l : list string) :
  In y (remove_first x l) -> In y l.
Proof.
  induction l as [| z l IH]; simpl; [tauto |].
  destruct (String.eqb x z); simpl; tauto.
Qed.

Lemma remove_first_keeps (x y : string) (l : list string) :
  y <> x -> In y l -> In y (remove_first x l).
Proof.
  intros Hne. induction l as [| z l IH]; simpl; [tauto |].
  destruct (String.eqb x z) eqn:E; simpl.
  - apply String.eqb_eq in E. subst z. intros [H | H]; [congruence | exact H].
  - tauto.
Qed.

Lemma remove_first_NoDup (x : string) (l : list string) :
  NoDup l -> NoDup (remove_first x l) /\ ~ In x (remove_first x l).
Proof.
  induction 1 as [| z l Hz Hl IH]; simpl.
  - split; [constructor | tauto].
  - destruct (String.eqb x z) eqn:E.
    + apply String.eqb_eq in E. subst z. split; assumption.
    + apply String.eqb_neq in E. destruct IH as [IH1 IH2]. split.
      * constructor; [| exact IH1]. intros H. apply remove_first_In in H.
        contradiction.
      * simpl. intros [H | H]; [congruence | contradiction].
Qed.

Lemma remove_first_snoc (x : string) (l : list string) :
  ~ In x l -> remove_first x (l ++ [x]) = l.
Proof.
  induction l as [| z l IH]; simpl; intros H.
  - rewrite String.eqb_refl. reflexivity.
  - destruct (String.eqb x z) eqn:E.
    + apply String.eqb_eq in E. subst z. tauto.
    + rewrite IH by tauto. reflexivity.
Qed.

(** What [add_to_favorites] leaves under the user's key. *)
Lemma add_to_favorites_lookup (f : Favorites) (user_id property_id : string) :
  dlookup user_id (add_to_favorites f user_id property_id)
  = Some (if in_list property_id (dget_list user_id f)
          then dget_list user_id f
          else dget_list user_id f ++ [property_id]).
Proof.
  unfold add_to_favorites. cbv zeta.
  destruct (dlookup user_id f) as [l |] eqn:E.
  - unfold dget_list. rewrite E.
    destruct (in_list property_id l); cbn [negb].
    + exact E.
    + apply dlookup_dstore_same.
  - rewrite !dget_list_dstore_same. unfold dget_list. rewrite E.
    cbn [in_list existsb negb app]. apply dlookup_dstore_same.
Qed.

Lemma add_to_favorites_others (f : Favorites)
    (user_id property_id other : string) :
  other <> user_id ->
  dlookup other (add_to_favorites f user_id property_id) = dlookup other f.
Proof.
  intros Hne. unfold add_to_favorites. cbv zeta.
  assert (H0 : dlookup other
                 (match dlookup user_id f with
                  | Some _ => f
                  | None => dstore user_id [] f
                  end) = dlookup other f).
  { destruct (dlookup user_id f); [reflexivity |].
    apply dlookup_dstore_other. congruence. }
  destruct (negb _); [| exact H0].
  rewrite dlookup_dstore_other by congruence. exact H0.
Qed.

(** X27: adding a favorite.  After [add_to_favorites] the property is among
    the user's favorites, everything that was there still is, a list
    without duplicates stays without duplicates, other users' favorites are
    unchanged, and adding the same property again changes nothing. *)
Theorem X27_add_to_favorites (f : Favorites) (user_id property_id : string) :
  let f' := add_to_favorites f user_id property_id in
  In property_id (get_user_favorites f' user_id)
  /\ (forall q, In q (get_user_favorites f user_id) ->
        In q (get_user_favorites f' user_id))
  /\ (NoDup (get_user_favorites f user_id) ->
      NoDup (get_user_favorites f' user_id))
  /\ (forall other, other <> user_id ->
        get_user_favorites f' other = get_user_favorites f other)
  /\ add_to_favorites f' user_id property_id = f'.
Proof.
  intros f'. subst f'. unfold get_user_favorites.
  pose proof (add_to_favorites_lookup f user_id property_id) as Hl.
  assert (Hget : dget_list user_id (add_to_favorites f user_id property_id)
                 = if in_list property_id (dget_list user_id f)
                   then dget_list user_id f
                   else dget_list user_id f ++ [property_id]).
  { unfold dget_list at 1. rewrite Hl. reflexivity. }
  rewrite Hget.
  destruct (in_list property_id (dget_list user_id f)) eqn:Hin.
  - split; [apply in_list_In; exact Hin |].
    split; [auto |]. split; [auto |]. split.
    + intros other Hne. unfold dget_list.
      rewrite (add_to_favorites_others f user_id property_id other Hne).
      reflexivity.
    + unfold add_to_favorites at 1. cbv zeta. rewrite Hl.
      rewrite Hget, Hin. reflexivity.
  - split; [apply in_or_app; right; left; reflexivity |].
    split; [intros q Hq; apply in_or_app; left; exact Hq |].
    split.
    + intros Hnd. apply NoDup_app; [exact Hnd | repeat constructor; tauto |].
      intros a Ha [<- | []].
      apply in_list_In in Ha. congruence.
    + split.
      * intros other Hne. unfold dget_list.
        rewrite (add_to_favorites_others f user_id property_id other Hne).
        reflexivity.
      * unfold add_to_favorites at 1. cbv zeta. rewrite Hl.
        rewrite Hget.
        assert (Hnow : in_list property_id
                         (dget_list user_id f ++ [property_id]) = true).
        { apply in_list_In. apply in_or_app. right. left. reflexivity. }
        rewrite Hnow. reflexivity.
Qed.

Lemma X27_add_to_favorites_witness :
  let f' := add_to_favorites sample_favorites "u1" "p3" in
  In "p3" (get_user_favorites f' "u1")
  /\ (forall q, In q (get_user_favorites sample_favorites "u1") ->
        In q (get_user_favorites f' "u1"))
  /\ (NoDup (get_user_favorites sample_favorites "u1") ->
      NoDup (get_user_favorites f' "u1"))
  /\ (forall other, other <> "u1" ->
        get_user_favorites f' other = get_user_favorites sample_favorites other)
  /\ add_to_favorites f' "u1" "p3" = f'.
Proof.
  exact (X27_add_to_favorites sample_favorites "u1" "p3").
Defined.

Lemma remove_first_absent (x : string) (l : list string) :
  ~ In x l -> remove_first x l = l.
Proof.
  induction l as [| z l IH]; simpl; intros H; [reflexivity |].
  destruct (String.eqb x z) eqn:E.
  - apply String.eqb_eq in E. subst z. tauto.
  - rewrite IH by tauto. reflexivity.
Qed.

Lemma remove_from_favorites_get (f : Favorites)
    (user_id property_id : string) :
  dget_list user_id (remove_from_favorites f user_id property_id)
  = remove_first property_id (dget_list user_id f).
Proof.
  unfold remove_from_favorites.
  destruct (dlookup user_id f) as [l |] eqn:E.
  - destruct (in_list property_id l) eqn:Hin.
    + rewrite dget_list_dstore_same. unfold dget_list. rewrite E. reflexivity.
    + unfold dget_list. rewrite E. symmetry. apply remove_first_absent.
      intros H. apply in_list_In in H. congruence.
  - unfold dget_list. rewrite E. reflexivity.
Qed.

Lemma remove_from_favorites_others (f : Favorites)
    (user_id property_id other : string) :
  other <> user_id ->
  dget_list other (remove_from_favorites f user_id property_id)
  = dget_list other f.
Proof.
  intros Hne. unfold remove_from_favorites.
  destruct (dlookup user_id f) as [l |]; [| reflexivity].
  destruct (in_list property_id l); [| reflexivity].
  apply dget_list_dstore_other. congruence.
Qed.

(** X28: removing a favorite.  [remove_from_favorites] drops the first
    occurrence of the property from the user's list: on a list without
    duplicates the property is gone afterwards, every other favorite is kept,
    other users are untouched, and removing a property right after adding it
    to a list that did not hold it restores the list. *)
Theorem X28_remove_from_favorites (f : Favorites)
    (user_id property_id : string) :
  let f' := remove_from_favorites f user_id property_id in
  (NoDup (get_user_favorites f user_id) ->
     ~ In property_id (get_user_favorites f' user_id)
     /\ NoDup (get_user_favorites f' user_id))
  /\ (forall q, q <> property_id ->
        (In q (get_user_favorites f' user_id)
         <-> In q (get_user_favorites f user_id)))
  /\ (forall other, other <> user_id ->
        get_user_favorites f' other = get_user_favorites f other)
  /\ (~ In property_id (get_user_favorites f user_id) ->
      get_user_favorites
        (remove_from_favorites (add_to_favorites f user_id property_id)
           user_id property_id) user_id
      = get_user_favorites f user_id).
Proof.
  intros f'. subst f'. unfold get_user_favorites.
  rewrite !remove_from_favorites_get.
  split; [| split; [| split]].
  - intros Hnd. destruct (remove_first_NoDup property_id _ Hnd). auto.
  - intros q Hne. split; [apply remove_first_In |].
    apply remove_first_keeps. exact Hne.
  - intros other Hne. apply remove_from_favorites_others. exact Hne.
  - intros Hout.
    assert (Hget : dget_list user_id (add_to_favorites f user_id property_id)
                   = dget_list user_id f ++ [property_id]).
    { unfold dget_list at 1. rewrite add_to_favorites_lookup.
      destruct (in_list property_id (dget_list user_id f)) eqn:Hin;
        [| reflexivity].
      apply in_list_In in Hin. contradiction. }
    rewrite Hget. apply remove_first_snoc. exact Hout.
Qed.

Lemma X28_remove_from_favorites_witness :
  let f' := remove_from_favorites sample_favorites "u1" "p1" in
  (~ In "p1" (get_user_favorites f' "u1")
   /\ NoDup (get_user_favorites f' "u1"))
  /\ (In "p2" (get_user_favorites f' "u1")
      <-> In "p2" (get_user_favorites sample_favorites "u1"))
  /\ get_user_favorites
       (remove_from_favorites (add_to_favorites sample_favorites "u1" "p9")
          "u1" "p9") "u1"
     = get_user_favorites sample_favorites "u1".
Proof.
  destruct (X28_remove_from_favorites sample_favorites "u1" "p1")
    as (Hgone & Hkeep & _ & _).
  destruct (X28_remove_from_favorites sample_favorites "u1" "p9")
    as (_ & _ & _ & Hround).
  split; [| split].
  - apply Hgone. simpl. repeat constructor; simpl; intuition discriminate.
  - apply Hkeep. discriminate.
  - apply Hround. simpl. intuition discriminate.
Defined.

(** ** Follow-up suggestions *)

Section SuggestionsProperties.

Context {Property : Type} (city : Property -> string).
Context {RT : PyRuntime}.

Lemma set_to_list_nonempty (l : list string) :
  l <> [] -> exists c rest, set_to_list l = c :: rest /\ In c l.
Proof.
  intros Hne. destruct l as [| x l]; [contradiction |].
  destruct (set_to_list (x :: l)) as [| c rest] eqn:E.
  - assert (H : In x (set_to_list (x :: l)))
      by (apply set_to_list_In; left; reflexivity).
    rewrite E in H. contradiction.
  - exists c, rest. split; [reflexivity |].
    apply set_to_list_In. rewrite E. left. reflexivity.
Qed.

Lemma fill_suggestions_done (fuel : nat) (suggestions : list string) :
  (List.length suggestions <? 4)%nat = false ->
  fill_suggestions fuel suggestions = Some suggestions.
Proof. intros H. destruct fuel; simpl; rewrite H; reflexivity. Qed.

(** What is collected before the [while] loop, by number of properties. *)
Lemma property_suggestions_cases (properties : list Property) :
  (properties = [] /\ property_suggestions city properties = [])
  \/ (exists p,
        In p (firstn 3 properties)
        /\ ((List.length properties <= 5)%nat
            /\ property_suggestions city properties
               = ["Get detailed information about a specific property";
                  "Compare these properties";
                  ("Show market trends for " ++ city p)%string]
            \/ (5 < List.length properties)%nat
               /\ property_suggestions city properties
                  = ["Show me more properties like these";
                     "Get detailed information about a specific property";
                     "Compare these properties";
                     ("Show market trends for " ++ city p)%string])).
Proof.
  destruct properties as [| p0 rest]; [left; split; reflexivity |].
  right. unfold property_suggestions. cbn [nonempty].
  destruct (set_to_list_nonempty (map city (firstn 3 (p0 :: rest))))
    as (c & others & Hset & Hc); [discriminate |].
  apply in_map_iff in Hc. destruct Hc as (p & <- & Hp).
  exists p. split; [exact Hp |]. cbv zeta. rewrite Hset.
  destruct (5 <? List.length (p0 :: rest))%nat eqn:E.
  - right. apply Nat.ltb_lt in E. split; [exact E | reflexivity].
  - left. apply Nat.ltb_ge in E. split; [exact E | reflexivity].
Qed.

(** X29: the agent always offers four follow-up suggestions.  For every
    message and property list the loop ends within four passes and the result
    holds exactly four distinct suggestions.  Without properties they are the
    four base suggestions in order; with properties they include the two
    property follow-ups and the market-trend suggestion for the city of one
    of the first three properties. *)
Theorem X29_four_distinct_suggestions (fuel : nat) (message : string)
    (properties : list Property) :
  (4 <= fuel)%nat ->
  exists out,
    _generate_suggestions city fuel message properties = Some out
    /\ List.length out = 4%nat
    /\ NoDup out
    /\ (properties = [] -> out = base_suggestions)
    /\ (properties <> [] ->
        In "Get detailed information about a specific property" out
        /\ In "Compare these properties" out
        /\ exists p, In p (firstn 3 properties)
                     /\ In ("Show market trends for " ++ city p)%string out).
Proof.
  intros Hfuel. do 4 (destruct fuel as [| fuel]; [lia |]). clear Hfuel.
  unfold _generate_suggestions.
  destruct (property_suggestions_cases properties)
    as [[-> ->] | (p & Hp & [[Hlen ->] | [Hlen ->]])].
  - exists base_suggestions.
    split; [cbn; rewrite fill_suggestions_done by reflexivity; reflexivity |].
    split; [reflexivity |].
    split; [| split; [reflexivity | intros H; contradiction]].
    unfold base_suggestions.
    repeat constructor; simpl; intuition discriminate.
  - eexists. split; [cbn; reflexivity |]. split; [reflexivity |].
    split; [| split].
    + repeat constructor; simpl; intuition discriminate.
    + intros ->. destruct Hp.
    + intros _. split; [simpl; auto |]. split; [simpl; auto |].
      exists p. split; [exact Hp | simpl; auto].
  - eexists. split; [cbn; reflexivity |]. split; [reflexivity |].
    split; [| split].
    + repeat constructor; simpl; intuition discriminate.
    + intros ->. destruct Hp.
    + intros _. split; [simpl; auto |]. split; [simpl; auto |].
      exists p. split; [exact Hp | simpl; auto 6].
Qed.

End SuggestionsProperties.

Lemma X29_four_distinct_suggestions_witness :
  exists out,
    _generate_suggestions (fun c : string => c) 4 "homes?" ["Austin"; "Dallas"]
    = Some out
    /\ List.length out = 4%nat
    /\ NoDup out
    /\ (["Austin"; "Dallas"] = [] -> out = base_suggestions)
    /\ (["Austin"; "Dallas"] <> [] ->
        In "Get detailed information about a specific property" out
        /\ In "Compare these properties" out
        /\ exists p, In p (firstn 3 ["Austin"; "Dallas"])
                     /\ In ("Show market trends for " ++ p)%string out).
Proof.
  apply (X29_four_distinct_suggestions (fun c : string => c) 4 "homes?"
           ["Austin"; "Dallas"]).
  lia.
Defined.
